(** * Helix: session queue, model-instance lifecycle and stream framing

    A shallow embedding of

    - the scheduler's session queue ([ShiftSessionQueue],
      [PushSessionQueue], [loadSessionQueues] of the controller), and
    - the Ollama inference model instance of the runner ([Stale],
      [GetState], [Stop], [processInteraction], [responseProcessor],
      [emitStreamDone], [errorSession] and the work branch of the loop
      started by [Run]),
    - the rest of the controller ([ConvertSessionToTask], the active
      sessions and text streams, [HandleWorkerResponse]), of the
      instance (its constructor, [addJobToHistory], the turns of the
      loop) and the limits of a crawl,

    followed by the properties of the specification stated over them
    and by further properties read off the code. *)

From stdpp Require Import base list strings gmap.
From Stdlib Require Import ZArith Lia.

Local Open Scope Z_scope.
Local Open Scope nat_scope.

(** ** Data of the [types] package, as the two source files use it *)

(** Go's [error]: only [err.Error()] is ever observed. *)
Definition error := string.

(** What a Go call leaves behind: a value, or a run-time panic. *)
Inductive outcome (A : Type) : Type :=
| Returned (a : A)
| Panicked (why : string).
Arguments Returned {A} a.
Arguments Panicked {A} why.

(** Modelled from the spec: the declaration of [types.CreatorType] is not
    among the sources; the data model gives creator ∈ {User, System}. *)
Inductive CreatorType := CreatorTypeUser | CreatorTypeSystem.

#[global] Instance CreatorType_eq_dec : EqDecision CreatorType.
Proof. solve_decision. Defined.

(** [types.Interaction], as far as the data model describes it. *)
Module Interaction.
Record t := mk {
  Creator : CreatorType;
  Message : string;
  Finished : bool
}.
End Interaction.

(** Modelled from the spec: the [types] package is not among the
    sources.  A [types.Session] has the fields the controller reads ([ID],
    [Mode], [Type], [ModelName], [Interactions]) and the adapter
    directory ([LoraDir]) that the filter of the data model speaks about. *)
Module Session.
Record t := mk {
  ID : string;
  Mode : string;
  Type_ : string;
  ModelName : string;
  LoraDir : string;
  Interactions : list Interaction.t
}.
End Session.

(** Modelled from the spec: [types.SessionFilter] with the recognised
    fields of the data model, mode, type, model name and adapter
    directory; the empty string is Go's zero value. *)
Module SessionFilter.
Record t := mk {
  Mode : string;
  Type_ : string;
  ModelName : string;
  LoraDir : string
}.
End SessionFilter.

(** ** The controller's session queue *)

Module Controller.

(** The part of [Controller] behind [sessionQueueMtx].  Every operation
    below holds the mutex from entry to return, so each is one atomic
    transition of this state. *)
Record t := mk { sessionQueue : list Session.t }.

(** The body of [for i, session := range c.sessionQueue] in
    [ShiftSessionQueue]: [rest] is what is left to visit, [i] the index
    of its head in [queue].  The three guards [continue]; the first
    session passing them is cut out with
    [append(queue[:i], queue[i+1:]...)]. *)
Fixpoint shiftScan (filter : SessionFilter.t) (queue : list Session.t)
    (i : nat) (rest : list Session.t) : option (Session.t * list Session.t) :=
  match rest with
  | [] => None
  | session :: rest' =>
      if bool_decide (SessionFilter.Mode filter ≠ "")
         && bool_decide (Session.Mode session ≠ SessionFilter.Mode filter)
      then shiftScan filter queue (S i) rest'
      else if bool_decide (SessionFilter.Type_ filter ≠ "")
         && bool_decide (Session.Type_ session ≠ SessionFilter.Type_ filter)
      then shiftScan filter queue (S i) rest'
      else if bool_decide (SessionFilter.ModelName filter ≠ "")
         && bool_decide (Session.ModelName session ≠ SessionFilter.ModelName filter)
      then shiftScan filter queue (S i) rest'
      else Some (session, take i queue ++ drop (S i) queue)
  end.

(** [ShiftSessionQueue]: the returned pair is the session pointer and
    the error of the Go signature, [None] standing for [nil]. *)
Definition ShiftSessionQueue (filter : SessionFilter.t) (c : t)
    : (option Session.t * option error) * t :=
  match shiftScan filter (sessionQueue c) 0 (sessionQueue c) with
  | Some (session, queue') => ((Some session, None), mk queue')
  | None => ((None, None), c)
  end.

(** One turn of the loop of [PushSessionQueue] over the old queue; the
    state is [(existing, newQueue)]. *)
Definition pushStep (session : Session.t) (st : bool * list Session.t)
    (existingSession : Session.t) : bool * list Session.t :=
  if bool_decide (Session.ID existingSession = Session.ID session)
  then (true, st.2 ++ [session])
  else (st.1, st.2 ++ [existingSession]).

Definition PushSessionQueue (session : Session.t) (c : t) : option error * t :=
  let st := foldl (pushStep session) (false, []) (sessionQueue c) in
  let newQueue := if st.1 then st.2 else st.2 ++ [session] in
  (None, mk newQueue).

(** [for i := len(sessions) - 1; i >= 0; i--] of [loadSessionQueues]:
    [n] is [i + 1].  An index out of range would be a Go panic. *)
Fixpoint loadLoop (sessions : list Session.t) (n : nat)
    (sessionQueue : list Session.t) : outcome (list Session.t) :=
  match n with
  | O => Returned sessionQueue
  | S i =>
      match sessions !! i with
      | None => Panicked "index out of range"
      | Some session =>
          let interactions := Session.Interactions session in
          if bool_decide (length interactions = 0)
          then loadLoop sessions i sessionQueue
          else
            match interactions !! (length interactions - 1) with
            | None => Panicked "index out of range"
            | Some latest =>
                if bool_decide (Interaction.Creator latest = CreatorTypeSystem)
                then loadLoop sessions i sessionQueue
                else loadLoop sessions i (sessionQueue ++ [session])
            end
      end
  end.

(** [loadSessionQueues]; [stored] is what [Store.GetSessions] answered,
    an error or the sessions in descending order. *)
Definition loadSessionQueues (stored : error + list Session.t) (c : t)
    : outcome (option error * t) :=
  match stored with
  | inl err => Returned (Some err, c)
  | inr sessions =>
      match loadLoop sessions (length sessions) [] with
      | Returned sessionQueue => Returned (None, mk sessionQueue)
      | Panicked why => Panicked why
      end
  end.

End Controller.

(** ** Time, as far as [Stale] and [GetState] look at it *)

Module Time.

(** A [time.Time] is an instant, counted in nanoseconds from Go's zero
    time (January 1 of year 1, 00:00:00 UTC).  A [time.Duration] is an
    int64 count of nanoseconds. *)
Definition t := Z.
Definition Duration := Z.

Definition minDuration : Duration := (- 2 ^ 63)%Z.
Definition maxDuration : Duration := (2 ^ 63 - 1)%Z.
Definition Second : Duration := (10 ^ 9)%Z.
Definition Millisecond : Duration := (10 ^ 6)%Z.

Definition IsZero (x : t) : bool := bool_decide (x = 0%Z).

(** [x.Sub(u)]: the difference, clamped to the range of a Duration. *)
Definition Sub (x u : t) : Duration :=
  let d := (x - u)%Z in
  if bool_decide (d < minDuration)%Z then minDuration
  else if bool_decide (maxDuration < d)%Z then maxDuration
  else d.

(** [time.Since(x)] is [time.Now().Sub(x)]; the reading of the clock is
    the argument [now]. *)
Definition Since (now x : t) : Duration := Sub now x.

(** Seconds between the zero time and the Unix epoch. *)
Definition unixToInternal : Z := 62135596800%Z.

Definition Unix (x : t) : Z := (x `div` Second - unixToInternal)%Z.

(** [int(d.Seconds())] and [d.Milliseconds()]: truncation towards zero
    (the rounding of the float64 in between is left out). *)
Definition Seconds (d : Duration) : Z := (d `quot` Second)%Z.
Definition Milliseconds (d : Duration) : Z := (d `quot` Millisecond)%Z.

End Time.

(** ** Wire data of the runner *)

(** [openai.ToolCall], with [Function.Name] and [Function.Arguments]. *)
Module ToolCall.
Record t := mk {
  ID : string;
  Type_ : string;
  Name : string;
  Arguments : string
}.
End ToolCall.

(** [types.Usage]. *)
Module Usage.
Record t := mk {
  PromptTokens : Z;
  CompletionTokens : Z;
  TotalTokens : Z;
  DurationMs : Z
}.
Definition zero : t := mk 0 0 0 0.
End Usage.

(** [types.RunnerLLMInferenceRequest]; of the embedded
    [openai.ChatCompletionRequest] the code reads [Model] and [Stream]. *)
Module Request.
Record t := mk {
  SessionID : string;
  InteractionID : string;
  Owner : string;
  Model : string;
  Stream : bool
}.
End Request.

(** Modelled from the spec: the declaration of
    [types.WorkerTaskResponseType] is not among the sources; the data
    model gives type ∈ {Stream, Result}. *)
Inductive WorkerTaskResponseType :=
| WorkerTaskResponseTypeStream
| WorkerTaskResponseTypeResult.

#[global] Instance WorkerTaskResponseType_eq_dec : EqDecision WorkerTaskResponseType.
Proof. solve_decision. Defined.

(** [types.RunnerTaskResponse], one frame handed to [responseHandler].
    A field the Go literal leaves out holds its zero value. *)
Module Frame.
Record t := mk {
  Type_ : WorkerTaskResponseType;
  SessionID : string;
  InteractionID : string;
  Owner : string;
  Done : bool;
  Message : string;
  Usage : Usage.t;
  ToolCalls : list ToolCall.t;
  ToolCallID : string;
  Error : string
}.
End Frame.

(** ** The local inference server, seen through the openai client *)

(** One chunk of a streamed completion: [Choices[k].Delta]. *)
Module Delta.
Record t := mk {
  Content : string;
  ToolCalls : list ToolCall.t
}.
End Delta.

Module StreamResponse.
Record t := mk { Choices : list Delta.t }.
End StreamResponse.

(** [Choices[k].Message] of a blocking completion. *)
Module ChatMessage.
Record t := mk {
  Content : string;
  ToolCalls : list ToolCall.t;
  ToolCallID : string
}.
End ChatMessage.

Module Response.
Record t := mk {
  Choices : list ChatMessage.t;
  PromptTokens : Z;
  CompletionTokens : Z;
  TotalTokens : Z
}.
End Response.

(** What successive calls of [stream.Recv()] answer: a chunk and the
    rest, the end of the stream ([errors.Is(err, io.EOF)]), or another
    error. *)
Inductive Recv :=
| RecvChunk (response : StreamResponse.t) (rest : Recv)
| RecvEOF
| RecvError (err : error).

(** The server behind [i.client]: any behaviour is allowed.  The blocking
    call also tells how long it took ([time.Since(start)]). *)
Module Client.
Record t := mk {
  CreateChatCompletionStream : Request.t -> error + Recv;
  CreateChatCompletion : Request.t -> error + (Response.t * Time.Duration)
}.
End Client.

(** ** The model instance *)

(** The child process of [exec.Cmd], with what the operating system
    knows of it. *)
Module Process.
Record t := mk {
  Pid : Z;
  exited : bool
}.
End Process.

(** Modelled from the spec: [killProcessTree] belongs to the runner
    package but is not among the sources.  The specification describes it
    as a tree-kill of the child and its descendants that does not fail on
    a process that is already dead. *)
Definition killProcessTree (p : Process.t) : option error * Process.t :=
  (None, Process.mk (Process.Pid p) true).

(** [types.ModelInstanceState]. *)
Module ModelInstanceState.
Record t := mk {
  ID : string;
  ModelName : string;
  Mode : string;
  InitialSessionID : string;
  CurrentSession : option string;
  JobHistory : list string;
  Timeout : Z;
  LastActivity : Z;
  Stale : bool;
  MemoryUsage : Z
}.
End ModelInstanceState.

Definition SessionModeInference : string := "inference".

Module Instance.

(** [OllamaInferenceModelInstance].  [InstanceTTL] is
    [runnerOptions.Config.Runtimes.Ollama.InstanceTTL];
    [memoryRequirements] is what [model.GetMemoryRequirements] answers;
    [workChClosed] and [cancelled] record [close(i.workCh)] and
    [i.cancel()]. *)
Record t := mk {
  id : string;
  modelName : string;
  InstanceTTL : Time.Duration;
  memoryRequirements : Z;
  currentCommand : option Process.t;
  initialRequest : option Request.t;
  currentRequest : option Request.t;
  lastActivity : Time.t;
  jobHistory : list string;
  workChClosed : bool;
  cancelled : bool
}.

Definition setCurrentCommand (cmd : option Process.t) (i : t) : t :=
  mk (id i) (modelName i) (InstanceTTL i) (memoryRequirements i) cmd
     (initialRequest i) (currentRequest i) (lastActivity i) (jobHistory i)
     (workChClosed i) (cancelled i).

Definition setCurrentRequest (req : option Request.t) (i : t) : t :=
  mk (id i) (modelName i) (InstanceTTL i) (memoryRequirements i)
     (currentCommand i) (initialRequest i) req (lastActivity i)
     (jobHistory i) (workChClosed i) (cancelled i).

Definition setLastActivity (now : Time.t) (i : t) : t :=
  mk (id i) (modelName i) (InstanceTTL i) (memoryRequirements i)
     (currentCommand i) (initialRequest i) (currentRequest i) now
     (jobHistory i) (workChClosed i) (cancelled i).

Definition closeWorkCh (i : t) : t :=
  mk (id i) (modelName i) (InstanceTTL i) (memoryRequirements i)
     (currentCommand i) (initialRequest i) (currentRequest i)
     (lastActivity i) (jobHistory i) true (cancelled i).

Definition cancel (i : t) : t :=
  mk (id i) (modelName i) (InstanceTTL i) (memoryRequirements i)
     (currentCommand i) (initialRequest i) (currentRequest i)
     (lastActivity i) (jobHistory i) (workChClosed i) true.

(** [Stop].  Closing a channel that is already closed panics in Go. *)
Definition Stop (i : t) : outcome (option error) * t :=
  match currentCommand i with
  | None => (Returned (Some "no Ollama process to stop"), i)
  | Some cmd =>
      let killed := killProcessTree cmd in
      let i := setCurrentCommand (Some killed.2) i in
      match killed.1 with
      | Some err => (Returned (Some err), i)
      | None =>
          if workChClosed i
          then (Panicked "close of closed channel", i)
          else (Returned None, cancel (closeWorkCh i))
      end
  end.

(** [Stale], at the clock reading [now]. *)
Definition Stale (now : Time.t) (i : t) : bool :=
  bool_decide (InstanceTTL i < Time.Since now (lastActivity i))%Z.

(** [GetState], at the clock reading [now]. *)
Definition GetState (now : Time.t) (i : t) : ModelInstanceState.t + error :=
  match initialRequest i with
  | None => inr "no initial session"
  | Some initial =>
      let stale :=
        if Time.IsZero (lastActivity i) then false
        else if bool_decide (InstanceTTL i < Time.Since now (lastActivity i))%Z
        then true
        else false in
      inl (ModelInstanceState.mk
             (id i) (modelName i) SessionModeInference
             (Request.SessionID initial) None (jobHistory i)
             (Time.Seconds (InstanceTTL i)) (Time.Unix (lastActivity i))
             stale (memoryRequirements i))
  end.

End Instance.

(** ** Emitting frames *)

(** A computation of the runner that hands frames to [responseHandler]
    and may panic.  The state is the list of frames handed over so far,
    oldest first; an error answered by the handler is only logged. *)
Definition Emit (A : Type) : Type := list Frame.t -> outcome A * list Frame.t.

Definition ret {A} (a : A) : Emit A := fun log => (Returned a, log).

Definition panic {A} (why : string) : Emit A := fun log => (Panicked why, log).

Definition bind {A B} (m : Emit A) (k : A -> Emit B) : Emit B :=
  fun log =>
    match m log with
    | (Returned a, log') => k a log'
    | (Panicked why, log') => (Panicked why, log')
    end.

Definition responseHandler (res : Frame.t) : Emit unit :=
  fun log => (Returned tt, log ++ [res]).

Declare Scope emit_scope.
Delimit Scope emit_scope with emit.
Notation "m1 ;> m2" := (bind m1 (fun _ => m2))
  (at level 62, right associativity) : emit_scope.

Local Open Scope emit_scope.

Definition responseProcessor (req : Request.t) (usage : Usage.t)
    (content : string) (toolCalls : list ToolCall.t) (toolCallID : string)
    (done : bool) : Emit unit :=
  responseHandler
    (Frame.mk
       (if done then WorkerTaskResponseTypeResult else WorkerTaskResponseTypeStream)
       (Request.SessionID req) (Request.InteractionID req) (Request.Owner req)
       done content usage toolCalls toolCallID "").

Definition streamDoneFrame (req : Request.t) : Frame.t :=
  Frame.mk WorkerTaskResponseTypeStream (Request.SessionID req) ""
    (Request.Owner req) true "" Usage.zero [] "" "".

Definition emitStreamDone (req : Request.t) : Emit unit :=
  responseHandler (streamDoneFrame req).

Definition errorFrame (req : Request.t) (err : error) : Frame.t :=
  Frame.mk WorkerTaskResponseTypeResult (Request.SessionID req) ""
    (Request.Owner req) false "" Usage.zero [] "" err.

Definition errorSession (req : Request.t) (err : error) : Emit unit :=
  responseHandler (errorFrame req err).

(** [fmt.Errorf("failed to get response from inference API: %w", err)]. *)
Definition wrapAPIError (err : error) : error :=
  "failed to get response from inference API: " +:+ err.

(** [toolCalls[toolCall.ID] = toolCall] for each call of a chunk. *)
Definition storeToolCalls (toolCalls : gmap string ToolCall.t)
    (delta : list ToolCall.t) : gmap string ToolCall.t :=
  foldl (fun m toolCall => <[ToolCall.ID toolCall := toolCall]> m) toolCalls delta.

Section ProcessInteraction.

(** Go ranges over a map in an order of its own choosing: [rangeOrder]
    is the order in which [for _, toolCall := range toolCalls] visits
    the values. *)
Variable rangeOrder : gmap string ToolCall.t -> list ToolCall.t.

(** The [for] loop of the streaming case, from the next [stream.Recv()]
    on. *)
Fixpoint recvLoop (inferenceReq : Request.t) (stream : Recv) (buf : string)
    (toolCalls : gmap string ToolCall.t) : Emit (option error) :=
  match stream with
  | RecvEOF =>
      emitStreamDone inferenceReq ;>
      responseProcessor inferenceReq Usage.zero buf (rangeOrder toolCalls) "" true ;>
      ret None
  | RecvError err =>
      errorSession inferenceReq err ;>
      ret (Some err)
  | RecvChunk response rest =>
      match StreamResponse.Choices response with
      | [] => panic "index out of range"
      | delta :: _ =>
          let buf := buf +:+ Delta.Content delta in
          let toolCalls := storeToolCalls toolCalls (Delta.ToolCalls delta) in
          responseProcessor inferenceReq Usage.zero (Delta.Content delta)
            (Delta.ToolCalls delta) "" false ;>
          recvLoop inferenceReq rest buf toolCalls
      end
  end.

Definition processInteraction (client : Client.t) (inferenceReq : Request.t)
    : Emit (option error) :=
  if Request.Stream inferenceReq then
    match Client.CreateChatCompletionStream client inferenceReq with
    | inl err => ret (Some (wrapAPIError err))
    | inr stream => recvLoop inferenceReq stream "" ∅
    end
  else
    match Client.CreateChatCompletion client inferenceReq with
    | inl err => ret (Some (wrapAPIError err))
    | inr (response, elapsed) =>
        emitStreamDone inferenceReq ;>
        let usage :=
          Usage.mk (Response.PromptTokens response)
            (Response.CompletionTokens response)
            (Response.TotalTokens response) (Time.Milliseconds elapsed) in
        match Response.Choices response with
        | [] => panic "index out of range"
        | message :: _ =>
            responseProcessor inferenceReq usage (ChatMessage.Content message)
              (ChatMessage.ToolCalls message) (ChatMessage.ToolCallID message)
              true ;>
            ret None
        end
    end.

(** [strings.Contains]. *)
Definition Contains (s substr : string) : bool :=
  bool_decide (is_Some (String.index 0 substr s)).

(** How the work branch of the loop of [Run] leaves a request. *)
Inductive Work :=
| Processed
| Failed (err : error)
| Exit (code : Z).

(** The branch [case session, ok := <-i.workCh] of the loop started by
    [Run], for a session received from the open channel at the clock
    reading [now].  The goroutine that waits for the command to exit runs
    beside this loop and is not part of it. *)
Definition work (client : Client.t) (now : Time.t) (session : Request.t)
    (i : Instance.t) (log : list Frame.t)
    : outcome Work * Instance.t * list Frame.t :=
  let i := Instance.setCurrentRequest (Some session) i in
  let i := Instance.setLastActivity now i in
  match processInteraction client session log with
  | (Panicked why, log) => (Panicked why, i, log)
  | (Returned (Some err), log) =>
      let log := (errorSession session err log).2 in
      if Contains err "connection refused"
      then (Returned (Exit 1), i, log)
      else (Returned (Failed err), Instance.setCurrentRequest None i, log)
  | (Returned None, log) =>
      (Returned Processed, Instance.setCurrentRequest None i, log)
  end.

End ProcessInteraction.

(** ** Vocabulary of the specification *)

(** A session passes a filter on mode, type and model name; an empty
    field of the filter accepts anything. *)
Definition passes (filter : SessionFilter.t) (session : Session.t) : bool :=
  bool_decide (SessionFilter.Mode filter = "" ∨
               Session.Mode session = SessionFilter.Mode filter)
  && bool_decide (SessionFilter.Type_ filter = "" ∨
                  Session.Type_ session = SessionFilter.Type_ filter)
  && bool_decide (SessionFilter.ModelName filter = "" ∨
                  Session.ModelName session = SessionFilter.ModelName filter).

(** The filter as the data model words it: the adapter directory is a
    fourth recognised field. *)
Definition matchesAllFields (filter : SessionFilter.t) (session : Session.t) : bool :=
  passes filter session
  && bool_decide (SessionFilter.LoraDir filter = "" ∨
                  Session.LoraDir session = SessionFilter.LoraDir filter).

(** The sessions handed out by [n] calls of [ShiftSessionQueue] in a
    row with one filter, in the order of the calls; a call that finds
    nothing hands out nothing. *)
Fixpoint shiftMany (n : nat) (filter : SessionFilter.t) (c : Controller.t)
    : list Session.t * Controller.t :=
  match n with
  | O => ([], c)
  | S n' =>
      match Controller.ShiftSessionQueue filter c with
      | ((Some session, _), c') =>
          let later := shiftMany n' filter c' in (session :: later.1, later.2)
      | ((None, _), c') => shiftMany n' filter c'
      end
  end.

(** A session awaits a response: it has interactions and the trailing
    one was created by the user. *)
Definition awaitsResponse (session : Session.t) : bool :=
  match last (Session.Interactions session) with
  | Some latest => bool_decide (Interaction.Creator latest = CreatorTypeUser)
  | None => false
  end.

(** The entry of the queue at one position after a push of [session]. *)
Definition replaced (session existingSession : Session.t) : Session.t :=
  if bool_decide (Session.ID existingSession = Session.ID session)
  then session else existingSession.

Definition ids (queue : list Session.t) : list string := Session.ID <$> queue.

(** ** Vocabulary of the stream protocol *)

(** The frame of one streamed chunk. *)
Definition deltaFrame (req : Request.t) (delta : Delta.t) : Frame.t :=
  Frame.mk WorkerTaskResponseTypeStream (Request.SessionID req)
    (Request.InteractionID req) (Request.Owner req) false
    (Delta.Content delta) Usage.zero (Delta.ToolCalls delta) "" "".

(** The closing frame of a request that went well. *)
Definition resultFrame (req : Request.t) (usage : Usage.t) (content : string)
    (toolCalls : list ToolCall.t) (toolCallID : string) : Frame.t :=
  Frame.mk WorkerTaskResponseTypeResult (Request.SessionID req)
    (Request.InteractionID req) (Request.Owner req) true content usage
    toolCalls toolCallID "".

Definition isDelta (f : Frame.t) : Prop :=
  Frame.Type_ f = WorkerTaskResponseTypeStream ∧ Frame.Done f = false.

Definition isStreamDone (f : Frame.t) : Prop :=
  Frame.Type_ f = WorkerTaskResponseTypeStream
  ∧ Frame.Done f = true ∧ Frame.Message f = "".

Definition isResult (f : Frame.t) : Prop :=
  Frame.Type_ f = WorkerTaskResponseTypeResult.

(** A server that streams the given chunks, one choice each, and then
    ends the stream. *)
Definition streamOf (deltas : list Delta.t) : Recv :=
  foldr (fun delta rest => RecvChunk (StreamResponse.mk [delta]) rest)
    RecvEOF deltas.

(** The content gathered in [buf] over the chunks. *)
Definition contentOf (deltas : list Delta.t) : string :=
  foldl (fun buf delta => buf +:+ Delta.Content delta) "" deltas.

(** The tool calls of the chunks, in the order received. *)
Definition toolCallsOf (deltas : list Delta.t) : list ToolCall.t :=
  concat (Delta.ToolCalls <$> deltas).

(** The last call received under an id. *)
Definition lastWithID (id : string) (calls : list ToolCall.t) : option ToolCall.t :=
  last (base.filter (λ call, ToolCall.ID call = id) calls).

(** The error the opening call of a request answers, if it does. *)
Definition openError (client : Client.t) (req : Request.t) : option error :=
  if Request.Stream req then
    match Client.CreateChatCompletionStream client req with
    | inl err => Some err
    | inr _ => None
    end
  else
    match Client.CreateChatCompletion client req with
    | inl err => Some err
    | inr _ => None
    end.


(** One admissible order of ranging over the accumulator. *)
Definition valuesOf (toolCalls : gmap string ToolCall.t) : list ToolCall.t :=
  (map_to_list toolCalls).*2.

(** What a run of [processInteraction] may append to the log [log], by
    the way it ends: [deltas] are the frames of the chunks received. *)
Definition shaped (req : Request.t) (log : list Frame.t)
    (ran : outcome (option error) * list Frame.t) (deltas : list Frame.t) : Prop :=
  match ran with
  | (Returned None, log') =>
      ∃ final, log' = log ++ deltas ++ [streamDoneFrame req; final]
               ∧ isResult final ∧ Frame.Done final = true ∧ Frame.Error final = ""
  | (Returned (Some err), log') => log' = log ++ deltas ++ [errorFrame req err]
  | (Panicked _, log') => ∃ partial, log' = log ++ partial
  end.

(** The stale flag of the snapshot, when [GetState] gives one. *)
Definition snapshotStale (now : Time.t) (i : Instance.t) : option bool :=
  match Instance.GetState now i with
  | inl state => Some (ModelInstanceState.Stale state)
  | inr _ => None
  end.

(** The subprocess of the instance is known to have exited. *)
Definition subprocessExited (i : Instance.t) : Prop :=
  ∃ cmd, Instance.currentCommand i = Some cmd ∧ Process.exited cmd = true.

(** ** Sample data *)

Definition userTurn : Interaction.t := Interaction.mk CreatorTypeUser "hi" false.
Definition systemTurn : Interaction.t := Interaction.mk CreatorTypeSystem "hello" true.

Definition sampleSession (id type lora : string) (turns : list Interaction.t)
    : Session.t :=
  Session.mk id "Create" type "llama3" lora turns.

Definition sessionA : Session.t := sampleSession "A" "Text" "" [userTurn].
Definition sessionB : Session.t := sampleSession "B" "Image" "" [userTurn].
Definition sessionC : Session.t := sampleSession "C" "Text" "" [userTurn].
Definition sessionX : Session.t := sampleSession "X" "Text" "" [userTurn].
Definition sessionX' : Session.t :=
  sampleSession "X" "Text" "" [userTurn; systemTurn; userTurn].
Definition sessionIdle : Session.t :=
  sampleSession "S2" "Text" "" [userTurn; systemTurn].
Definition sessionTuned : Session.t :=
  sampleSession "T" "Text" "adapters/a" [userTurn].

Definition anyFilter : SessionFilter.t := SessionFilter.mk "" "" "" "".
Definition textFilter : SessionFilter.t := SessionFilter.mk "" "Text" "" "".
Definition adapterFilter : SessionFilter.t := SessionFilter.mk "" "" "" "adapters/b".

(** ** Sample data of the runner *)

Definition quote : string := String (Ascii.ascii_of_nat 34) EmptyString.

Definition argsHead : string := "{" +:+ quote +:+ "x" +:+ quote +:+ ":".
Definition argsTail : string := "1}".

Definition callName : ToolCall.t := ToolCall.mk "t1" "" "f" "".
Definition callHead : ToolCall.t := ToolCall.mk "t1" "" "" argsHead.
Definition callTail : ToolCall.t := ToolCall.mk "t1" "" "" argsTail.
Definition callMerged : ToolCall.t := ToolCall.mk "t1" "" "f" (argsHead +:+ argsTail).

Definition toolDeltas : list Delta.t :=
  [Delta.mk "" [callName]; Delta.mk "" [callHead]; Delta.mk "" [callTail]].

Definition streamRequest : Request.t := Request.mk "ses_1" "int_1" "alice" "llama3" true.
Definition blockingRequest : Request.t := Request.mk "ses_2" "int_2" "alice" "llama3" false.

Definition twoTokens : Response.t :=
  Response.mk [ChatMessage.mk "hello" [] ""] 3 2 5.

(** Streams the chunks and ends; answers blocking calls in 20 ms. *)
Definition servingClient (deltas : list Delta.t) : Client.t :=
  Client.mk (fun _ => inr (streamOf deltas))
            (fun _ => inr (twoTokens, (20 * Time.Millisecond)%Z)).


(** Cannot reach the server at all. *)
Definition refusedClient : Client.t :=
  Client.mk (fun _ => inl "dial tcp 127.0.0.1:11434: connect: connection refused")
            (fun _ => inl "dial tcp 127.0.0.1:11434: connect: connection refused").

(** Streams one chunk, then breaks. *)
Definition breakingClient : Client.t :=
  Client.mk (fun _ => inr (RecvChunk (StreamResponse.mk [Delta.mk "he" []])
                             (RecvError "unexpected EOF")))
            (fun _ => inl "connection reset by peer").

Definition sampleNow : Time.t := (63902822400 * Time.Second)%Z.
Definition fiveSeconds : Time.Duration := (5 * Time.Second)%Z.

(** An instance as [NewOllamaInferenceModelInstance] and a successful
    [Run] leave it, with the fields of the snapshot filled in. *)
Definition startedInstance (lastActivity : Time.t) : Instance.t :=
  Instance.mk "inst_1" "llama3" fiveSeconds 0 (Some (Process.mk 4242 false))
    (Some streamRequest) None lastActivity [] false false.

(** The same before [Run] launched a command. *)
Definition idleInstance : Instance.t :=
  Instance.setCurrentCommand None (startedInstance sampleNow).

(** The same once the server has died by itself. *)
Definition crashedInstance : Instance.t :=
  Instance.setCurrentCommand (Some (Process.mk 4242 true))
    (startedInstance sampleNow).

Definition sixSecondsAgo : Time.t := (sampleNow - 6 * Time.Second)%Z.
Definition fourSecondsAgo : Time.t := (sampleNow - 4 * Time.Second)%Z.

(** * The rest of the controller *)

(** [types.WorkerTask], with the fields [ConvertSessionToTask] fills in. *)
Module WorkerTask.
Record t := mk {
  SessionID : string;
  Session : Session.t;
  Prompt : string
}.
End WorkerTask.

(** [types.WorkerTaskResponse]; the controller reads [SessionID] only. *)
Module WorkerTaskResponse.
Record t := mk {
  SessionID : string;
  Message : string
}.
End WorkerTaskResponse.

(** The [model] package is not among the sources.  What the controller
    asks of it is taken as given: a language model renders a prompt and
    opens a text stream, an image model renders a prompt, and both are
    looked up by model name.  [TextStream] is whatever a text stream
    is. *)
Module LanguageModel.
Record t (TextStream : Type) := mk {
  GetPrompt : Session.t -> error + string;
  GetTextStream : error + TextStream
}.
Arguments mk {TextStream} _ _.
Arguments GetPrompt {TextStream} _ _.
Arguments GetTextStream {TextStream} _.
End LanguageModel.

Module ImageModel.
Record t := mk { GetPrompt : Session.t -> error + string }.
End ImageModel.

Module Models.
Record t (TextStream : Type) := mk {
  GetLanguageModel : string -> error + LanguageModel.t TextStream;
  GetImageModel : string -> error + ImageModel.t
}.
Arguments mk {TextStream} _ _.
Arguments GetLanguageModel {TextStream} _ _.
Arguments GetImageModel {TextStream} _ _.
End Models.

(** [ConvertSessionToTask]; [None] for the session is the nil pointer,
    and the answer is the pair of the task pointer and the error. *)
Definition ConvertSessionToTask {TextStream : Type} (models : Models.t TextStream)
    (session : option Session.t) : option WorkerTask.t * option error :=
  match session with
  | None => (None, None)
  | Some session =>
      let task := WorkerTask.mk (Session.ID session) session "" in
      if bool_decide (Session.Mode session = "Create")
         && bool_decide (Session.Type_ session = "Text")
      then
        match Models.GetLanguageModel models (Session.ModelName session) with
        | inl err => (None, Some err)
        | inr model =>
            match LanguageModel.GetPrompt model session with
            | inl err => (None, Some err)
            | inr prompt =>
                (Some (WorkerTask.mk (WorkerTask.SessionID task)
                         (WorkerTask.Session task) prompt), None)
            end
        end
      else if bool_decide (Session.Mode session = "Create")
         && bool_decide (Session.Type_ session = "Image")
      then
        match Models.GetImageModel models (Session.ModelName session) with
        | inl err => (None, Some err)
        | inr model =>
            match ImageModel.GetPrompt model session with
            | inl err => (None, Some err)
            | inr prompt =>
                (Some (WorkerTask.mk (WorkerTask.SessionID task)
                         (WorkerTask.Session task) prompt), None)
            end
        end
      else if bool_decide (Session.Mode session = "Finetune")
         && bool_decide (Session.Type_ session = "Text")
      then (None, None)
      else if bool_decide (Session.Mode session = "Finetune")
         && bool_decide (Session.Type_ session = "Image")
      then (None, None)
      else (None, None)
  end.

(** The maps of [Controller] behind [activeSessionMtx] and
    [activeTextStreamsMtx]. *)
Module Active.

Record t (TextStream : Type) := mk {
  activeSessions : gmap string Session.t;
  activeTextStreams : gmap string TextStream
}.
Arguments mk {TextStream} _ _.
Arguments activeSessions {TextStream} _.
Arguments activeTextStreams {TextStream} _.

Section Operations.

Context {TextStream : Type}.
Implicit Types (c : t TextStream).

(** [AddActiveSession].  The session is stored before the model is
    looked up; starting the text stream is a goroutine of its own and
    left out. *)
Definition AddActiveSession (models : Models.t TextStream)
    (session : Session.t) c : option error * t TextStream :=
  let c := mk (<[Session.ID session := session]> (activeSessions c))
              (activeTextStreams c) in
  if bool_decide (Session.Type_ session = "Text")
     && bool_decide (Session.Mode session = "Create")
  then
    match Models.GetLanguageModel models (Session.ModelName session) with
    | inl err => (Some err, c)
    | inr sessionModel =>
        match LanguageModel.GetTextStream sessionModel with
        | inl err => (Some err, c)
        | inr textStream =>
            (None, mk (activeSessions c)
                      (<[Session.ID session := textStream]> (activeTextStreams c)))
        end
    end
  else (None, c).

Definition GetActiveSession (id : string) c : option Session.t * option error :=
  match activeSessions c !! id with
  | None => (None, Some "session not found")
  | Some session => (Some session, None)
  end.

Definition GetActiveTextStream (id : string) c : option TextStream * option error :=
  match activeTextStreams c !! id with
  | None => (None, Some "text stream not found")
  | Some textStream => (Some textStream, None)
  end.

Definition RemoveActiveSession (id : string) c : option error * t TextStream :=
  match activeSessions c !! id with
  | None => (Some "session not found", c)
  | Some _ => (None, mk (delete id (activeSessions c)) (activeTextStreams c))
  end.

Definition RemoveActiveTextStream (id : string) c : option error * t TextStream :=
  match activeTextStreams c !! id with
  | None => (Some "text stream not found", c)
  | Some _ => (None, mk (activeSessions c) (delete id (activeTextStreams c)))
  end.

(** [handleWorkerResponseLanguageInference]: all of its body is
    commented out but the final return. *)
Definition handleWorkerResponseLanguageInference
    (taskResponse : WorkerTaskResponse.t) (session : Session.t)
    : option WorkerTaskResponse.t * option error :=
  (None, None).

(** [handleWorkerResponseImageInference]: dumps the response on the
    standard output and hands it back. *)
Definition handleWorkerResponseImageInference
    (taskResponse : WorkerTaskResponse.t) (session : Session.t)
    : option WorkerTaskResponse.t * option error :=
  (Some taskResponse, None).

Definition HandleWorkerResponse (taskResponse : WorkerTaskResponse.t) c
    : option WorkerTaskResponse.t * option error :=
  match GetActiveSession (WorkerTaskResponse.SessionID taskResponse) c with
  | (_, Some err) => (None, Some err)
  | (None, None) => (None, None) (* never met: see [GetActiveSession] *)
  | (Some session, None) =>
      if bool_decide (Session.Mode session = "Create")
         && bool_decide (Session.Type_ session = "Text")
      then handleWorkerResponseLanguageInference taskResponse session
      else if bool_decide (Session.Mode session = "Create")
         && bool_decide (Session.Type_ session = "Image")
      then handleWorkerResponseImageInference taskResponse session
      else if bool_decide (Session.Mode session = "Finetune")
         && bool_decide (Session.Type_ session = "Text")
      then (None, None)
      else if bool_decide (Session.Mode session = "Finetune")
         && bool_decide (Session.Type_ session = "Image")
      then (None, None)
      else (None, None)
  end.

End Operations.

End Active.

(** Pushes in a row, first to last. *)
Definition pushAll (sessions : list Session.t) (c : Controller.t) : Controller.t :=
  foldl (fun c session => (Controller.PushSessionQueue session c).2) c sessions.

(** * The rest of the model instance *)

Definition setJobHistory (jobHistory : list string) (i : Instance.t) : Instance.t :=
  Instance.mk (Instance.id i) (Instance.modelName i) (Instance.InstanceTTL i)
    (Instance.memoryRequirements i) (Instance.currentCommand i)
    (Instance.initialRequest i) (Instance.currentRequest i)
    (Instance.lastActivity i) jobHistory (Instance.workChClosed i)
    (Instance.cancelled i).

(** [NewOllamaInferenceModelInstance].  [GetModel] is [model.GetModel],
    a model being known by the memory it requires; [uuid] is what
    [system.GenerateUUID] answers, [now] the reading of the clock,
    [parentDone] whether the context handed in is already cancelled, and
    [InstanceTTL] the setting of the runner options. *)
Definition NewOllamaInferenceModelInstance (GetModel : string -> error + Z)
    (uuid : string) (now : Time.t) (parentDone : bool)
    (InstanceTTL : Time.Duration) (request : Request.t) : Instance.t + error :=
  let modelName := Request.Model request in
  match GetModel modelName with
  | inl err => inr err
  | inr aiModel =>
      inl (Instance.mk uuid modelName InstanceTTL aiModel None None None now []
             false parentDone)
  end.

(** [ID], [Model], [GetQueuedSession]. *)
Definition ID (i : Instance.t) : string := Instance.id i.
Definition Model (i : Instance.t) : string := Instance.modelName i.
Definition GetQueuedSession (i : Instance.t) : option Session.t := None.

(** [addJobToHistory].  [summary] is what [data.GetSessionSummary]
    answers for the session; [JobHistoryBufferSize] is the setting of
    the runner options. *)
Definition addJobToHistory (JobHistoryBufferSize : Z) (summary : error + string)
    (i : Instance.t) : option error * Instance.t :=
  match summary with
  | inl err => (Some err, i)
  | inr summary =>
      let jobHistory := summary :: Instance.jobHistory i in
      let jobHistory :=
        if bool_decide (JobHistoryBufferSize < Z.of_nat (length jobHistory))%Z
        then take (length jobHistory - 1) jobHistory
        else jobHistory in
      (None, setJobHistory jobHistory i)
  end.

(** ** The loop started by [Run] *)

Module Loop.

(** The instance, what the work channel (of capacity one) holds, and
    the frames handed to the response handler so far. *)
Record t := mk {
  instance : Instance.t;
  workCh : option Request.t;
  frames : list Frame.t
}.

(** How one turn of the loop ends: the goroutine returns, a request was
    worked on, a request was put on the work channel, or the loop slept
    for 300 ms. *)
Inductive Turn :=
| Stopped
| Worked (ended : outcome Work)
| Enqueued
| Slept.

Section Turn.

Variable rangeOrder : gmap string ToolCall.t -> list ToolCall.t.

(** One turn of [for { select { ... } }].  The case [<-i.ctx.Done()]
    can proceed once the context is cancelled, the case [<-i.workCh] once
    the channel holds a request or is closed; when both can, [preferDone]
    is the choice Go makes between them; when neither can, the [default]
    case runs with [next], the answer of [getNextRequest].  There the
    channel is empty and open, so the send goes through at once.  What
    another goroutine does in the middle of a turn is not part of it. *)
Definition turn (client : Client.t) (preferDone : bool) (now : Time.t)
    (next : error + option Request.t) (st : t) : Turn * t :=
  let doneReady := Instance.cancelled (instance st) in
  let workReady :=
    bool_decide (is_Some (workCh st)) || Instance.workChClosed (instance st) in
  if doneReady && (negb workReady || preferDone) then (Stopped, st)
  else if workReady then
    match workCh st with
    | None => (Stopped, st)
    | Some session =>
        let ran := work rangeOrder client now session (instance st) (frames st) in
        (Worked ran.1.1, mk ran.1.2 None ran.2)
    end
  else
    match next with
    | inl err => (Slept, st)
    | inr None => (Slept, st)
    | inr (Some session) => (Enqueued, mk (instance st) (Some session) (frames st))
    end.

End Turn.

End Loop.

(** ** More sample data *)

Definition echoPrompt (session : Session.t) : error + string :=
  inr ("prompt for " +:+ Session.ID session).

(** Knows the model [llama3] for text and no model for images; text
    streams are known by a name. *)
Definition sampleModels : Models.t string :=
  Models.mk
    (fun name =>
       if bool_decide (name = "llama3")
       then inr (LanguageModel.mk echoPrompt (inr "stream"))
       else inl "no model found")
    (fun name => inl "no model found").

Definition noActive : Active.t string := Active.mk ∅ ∅.

Definition sessionImage : Session.t := sampleSession "I" "Image" "" [userTurn].

Definition sessionUnknownModel : Session.t :=
  Session.mk "U" "Create" "Text" "mistral" "" [userTurn].

Definition freshInstance : Instance.t :=
  Instance.mk "inst_2" "llama3" fiveSeconds 0 None None None sampleNow []
    false false.

Definition sampleLoop : Loop.t :=
  Loop.mk (startedInstance sampleNow) None [].

(** ** More vocabulary *)

(** A frame is addressed to a request: it names its session and its
    owner. *)
Definition addressedTo (req : Request.t) (f : Frame.t) : Prop :=
  Frame.SessionID f = Request.SessionID req
  ∧ Frame.Owner f = Request.Owner req.

(** The messages of frames, joined in their order. *)
Definition joined (frames : list Frame.t) : string :=
  foldr (fun f rest => Frame.Message f +:+ rest) "" frames.

(** A server that streams the given chunks, one choice each, and then
    goes on as [rest]. *)
Definition streamThen (deltas : list Delta.t) (rest : Recv) : Recv :=
  foldr (fun delta rest => RecvChunk (StreamResponse.mk [delta]) rest)
    rest deltas.

(** Streams one good chunk and then a chunk without choices. *)
Definition choicelessClient : Client.t :=
  Client.mk
    (fun _ => inr (streamThen [Delta.mk "he" []]
                     (RecvChunk (StreamResponse.mk []) RecvEOF)))
    (fun _ => inr (Response.mk [] 3 0 3, (20 * Time.Millisecond)%Z)).

(** A turn after which the goroutine of the loop is gone: it returned,
    it panicked, or it exited the process. *)
Definition lastTurn (t : Loop.Turn) : bool :=
  match t with
  | Loop.Stopped => true
  | Loop.Worked (Panicked _) => true
  | Loop.Worked (Returned (Exit _)) => true
  | _ => false
  end.

(** The loop over as many turns as there are inputs, or until its last
    turn; an input is the choice between ready cases, the reading of the
    clock and the answer of [getNextRequest] of one turn. *)
Fixpoint turns (rangeOrder : gmap string ToolCall.t -> list ToolCall.t)
    (client : Client.t)
    (inputs : list (bool * Time.t * (error + option Request.t)))
    (st : Loop.t) : Loop.t :=
  match inputs with
  | [] => st
  | (preferDone, now, next) :: inputs' =>
      let t := Loop.turn rangeOrder client preferDone now next st in
      if lastTurn t.1 then t.2 else turns rangeOrder client inputs' t.2
  end.

(** * The limits of a crawl *)

(** [Knowledge.Source.Web.Crawler]: the settings [Crawl] reads. *)
Module Crawler.
Record t := mk {
  Enabled : bool;
  MaxDepth : Z;
  MaxPages : Z;
  UserAgent : string
}.
End Crawler.



Module Limits.
Record t := mk {
  maxPages : Z;
  maxDepth : Z;
  userAgent : string
}.
End Limits.



(** * Properties *)

(** ** Session queue *)

Section QueueFacts.

Implicit Types (c : Controller.t) (queue pre post : list Session.t).
Implicit Types (session s : Session.t) (filter : SessionFilter.t).

Lemma passes_guards filter session :
  passes filter session =
  negb (bool_decide (SessionFilter.Mode filter ≠ "")
        && bool_decide (Session.Mode session ≠ SessionFilter.Mode filter))
  && negb (bool_decide (SessionFilter.Type_ filter ≠ "")
        && bool_decide (Session.Type_ session ≠ SessionFilter.Type_ filter))
  && negb (bool_decide (SessionFilter.ModelName filter ≠ "")
        && bool_decide (Session.ModelName session ≠ SessionFilter.ModelName filter)).
Proof.
  unfold passes.
  repeat case_bool_decide; simpl; try reflexivity; exfalso; tauto.
Qed.

Lemma shiftScan_cons filter queue i session rest :
  Controller.shiftScan filter queue i (session :: rest) =
  if passes filter session
  then Some (session, take i queue ++ drop (S i) queue)
  else Controller.shiftScan filter queue (S i) rest.
Proof.
  rewrite passes_guards. simpl.
  repeat (destruct (_ && _); simpl; try reflexivity).
Qed.

Lemma shiftScan_miss filter queue i rest :
  Forall (λ s, passes filter s = false) rest →
  Controller.shiftScan filter queue i rest = None.
Proof.
  intros Hall. revert i.
  induction Hall as [|s rest Hs _ IH]; intros i; [reflexivity|].
  rewrite shiftScan_cons, Hs. apply IH.
Qed.

Lemma shiftScan_hit filter done pre s post :
  Forall (λ x, passes filter x = false) pre →
  passes filter s = true →
  Controller.shiftScan filter (done ++ pre ++ s :: post) (length done)
    (pre ++ s :: post)
  = Some (s, done ++ pre ++ post).
Proof.
  intros Hpre Hs. revert done.
  induction Hpre as [|x pre Hx _ IH]; intros done; simpl app.
  - rewrite shiftScan_cons, Hs.
    rewrite take_app_length.
    rewrite cons_middle, app_assoc.
    rewrite drop_app_length' by (rewrite length_app; simpl; lia).
    reflexivity.
  - rewrite shiftScan_cons, Hx.
    specialize (IH (done ++ [x])).
    rewrite length_app in IH. simpl in IH.
    replace (length done + 1) with (S (length done)) in IH by lia.
    rewrite <- !app_assoc in IH. simpl in IH. exact IH.
Qed.

Lemma Shift_miss filter c :
  Forall (λ s, passes filter s = false) (Controller.sessionQueue c) →
  Controller.ShiftSessionQueue filter c = ((None, None), c).
Proof.
  intros Hall. unfold Controller.ShiftSessionQueue.
  rewrite shiftScan_miss by assumption. reflexivity.
Qed.

Lemma Shift_hit filter pre s post :
  Forall (λ x, passes filter x = false) pre →
  passes filter s = true →
  Controller.ShiftSessionQueue filter (Controller.mk (pre ++ s :: post))
  = ((Some s, None), Controller.mk (pre ++ post)).
Proof.
  intros Hpre Hs. unfold Controller.ShiftSessionQueue. simpl.
  pose proof (shiftScan_hit filter [] pre s post Hpre Hs) as H.
  simpl in H. rewrite H. reflexivity.
Qed.

(** Every queue is either free of passing sessions or splits at the
    first one. *)
Lemma split_at_first_passing filter queue :
  Forall (λ s, passes filter s = false) queue
  ∨ ∃ pre s post, queue = pre ++ s :: post
      ∧ Forall (λ x, passes filter x = false) pre
      ∧ passes filter s = true.
Proof.
  induction queue as [|x queue IH]; [left; constructor|].
  destruct (passes filter x) eqn:Hx.
  - right. exists [], x, queue. repeat split; [constructor|assumption].
  - destruct IH as [Hall|(pre & s & post & -> & Hpre & Hs)].
    + left. constructor; assumption.
    + right. exists (x :: pre), s, post. repeat split; [|assumption].
      constructor; assumption.
Qed.

Lemma filter_none filter queue :
  Forall (λ s, passes filter s = false) queue →
  base.filter (λ s, passes filter s = true) queue = [].
Proof.
  induction 1 as [|x queue Hx _ IH]; [reflexivity|].
  rewrite filter_cons_False by (rewrite Hx; discriminate). exact IH.
Qed.

Lemma shiftMany_fifo n filter c :
  (shiftMany n filter c).1
  = take n (base.filter (λ s, passes filter s = true) (Controller.sessionQueue c)).
Proof.
  revert c. induction n as [|n IH]; intros [queue]; [reflexivity|].
  simpl shiftMany. simpl Controller.sessionQueue.
  destruct (split_at_first_passing filter queue)
    as [Hall|(pre & s & post & -> & Hpre & Hs)].
  - rewrite Shift_miss by assumption.
    rewrite IH. simpl. rewrite filter_none by assumption.
    rewrite !take_nil. reflexivity.
  - rewrite Shift_hit by assumption. simpl.
    rewrite IH. simpl.
    rewrite !filter_app, !filter_none by assumption.
    rewrite filter_cons_True by assumption. reflexivity.
Qed.

End QueueFacts.

Section PushFacts.

Implicit Types (c : Controller.t) (queue : list Session.t).
Implicit Types (session s : Session.t).

Lemma pushLoop_queue session queue st :
  (foldl (Controller.pushStep session) st queue).2
  = st.2 ++ (replaced session <$> queue).
Proof.
  revert st. induction queue as [|x queue IH]; intros st; simpl.
  - rewrite app_nil_r. reflexivity.
  - rewrite IH. unfold Controller.pushStep, replaced.
    case_bool_decide; simpl; rewrite <- app_assoc; reflexivity.
Qed.

Lemma pushLoop_existing session queue st :
  (foldl (Controller.pushStep session) st queue).1
  = st.1 || bool_decide (Session.ID session ∈ ids queue).
Proof.
  revert st. induction queue as [|x queue IH]; intros st; simpl.
  - destruct (st.1); reflexivity.
  - rewrite IH. unfold Controller.pushStep.
    replace (bool_decide (Session.ID session ∈ ids (x :: queue)))
      with (bool_decide (Session.ID x = Session.ID session)
            || bool_decide (Session.ID session ∈ ids queue)).
    + destruct (bool_decide (Session.ID x = Session.ID session)); simpl;
        [rewrite orb_true_r|]; reflexivity.
    + unfold ids. change (Session.ID <$> x :: queue)
        with (Session.ID x :: (Session.ID <$> queue)).
      rewrite <- bool_decide_or. apply bool_decide_ext.
      rewrite elem_of_cons.
      split; (intros [Heq|Hin]; [left; congruence|right; assumption]).
Qed.

Lemma replaced_absent session queue :
  Session.ID session ∉ ids queue → replaced session <$> queue = queue.
Proof.
  unfold ids. induction queue as [|x queue IH]; intros Hnot; [reflexivity|].
  change (Session.ID <$> x :: queue)
    with (Session.ID x :: (Session.ID <$> queue)) in Hnot.
  rewrite not_elem_of_cons in Hnot. destruct Hnot as [Hx Hq].
  change (replaced session <$> x :: queue)
    with (replaced session x :: (replaced session <$> queue)).
  rewrite IH by assumption.
  unfold replaced. rewrite bool_decide_eq_false_2 by congruence. reflexivity.
Qed.

Lemma Push_queue session c :
  Controller.sessionQueue (Controller.PushSessionQueue session c).2
  = if bool_decide (Session.ID session ∈ ids (Controller.sessionQueue c))
    then replaced session <$> Controller.sessionQueue c
    else Controller.sessionQueue c ++ [session].
Proof.
  unfold Controller.PushSessionQueue. simpl.
  rewrite pushLoop_existing, pushLoop_queue. simpl.
  case_bool_decide; simpl.
  - reflexivity.
  - rewrite replaced_absent by assumption. reflexivity.
Qed.

End PushFacts.

Section LoadFacts.

Implicit Types (sessions acc : list Session.t) (session : Session.t).

Lemma awaitsResponse_empty session :
  Session.Interactions session = [] → awaitsResponse session = false.
Proof. unfold awaitsResponse. intros ->. reflexivity. Qed.

Lemma loadLoop_take sessions n acc :
  n ≤ length sessions →
  Controller.loadLoop sessions n acc
  = Returned (acc ++ reverse (base.filter (λ s, awaitsResponse s = true)
                                (take n sessions))).
Proof.
  revert acc. induction n as [|i IH]; intros acc Hn.
  - simpl. rewrite take_0. simpl. rewrite app_nil_r. reflexivity.
  - destruct (lookup_lt_is_Some_2 sessions i) as [session Hi]; [lia|].
    rewrite (take_S_r _ _ _ Hi), filter_app, reverse_app.
    simpl Controller.loadLoop. rewrite Hi.
    case_bool_decide as Hlen.
    + rewrite IH by lia.
      rewrite filter_cons_False, filter_nil; [reflexivity|].
      apply length_zero_iff_nil in Hlen.
      rewrite (awaitsResponse_empty _ Hlen). discriminate.
    + pose proof (last_lookup (Session.Interactions session)) as Hlast.
      replace (pred (length (Session.Interactions session)))
        with (length (Session.Interactions session) - 1) in Hlast by lia.
      destruct (Session.Interactions session !!
                  (length (Session.Interactions session) - 1))
        as [latest|] eqn:Hlatest.
      * case_bool_decide as Hcreator.
        -- rewrite IH by lia.
           rewrite filter_cons_False, filter_nil; [reflexivity|].
           unfold awaitsResponse. rewrite Hlast, Hcreator. discriminate.
        -- rewrite IH by lia.
           rewrite filter_cons_True, filter_nil.
           ++ rewrite reverse_singleton, <- app_assoc. reflexivity.
           ++ unfold awaitsResponse. rewrite Hlast.
              apply bool_decide_eq_true_2.
              destruct (Interaction.Creator latest); congruence.
      * apply lookup_ge_None in Hlatest. lia.
Qed.

End LoadFacts.

(** ** The claims on the session queue *)

(** C4.  [PushSessionQueue] never fails.  When no queued session has the
    id of the pushed one, it is appended at the tail.  Otherwise the
    queue keeps its length and every position holds what it held, except
    that an entry with the pushed id now holds the pushed session.  So
    pushing X' onto [A; X; B] gives [A; X'; B]. *)
Theorem push_replaces_in_place (session : Session.t) (c : Controller.t) :
  let queue := Controller.sessionQueue c in
  let queue' := Controller.sessionQueue (Controller.PushSessionQueue session c).2 in
  (Controller.PushSessionQueue session c).1 = None
  ∧ (Session.ID session ∉ ids queue → queue' = queue ++ [session])
  ∧ (Session.ID session ∈ ids queue →
       length queue' = length queue
       ∧ ∀ (i : nat) (existingSession : Session.t),
           queue !! i = Some existingSession →
           queue' !! i =
             Some (if decide (Session.ID existingSession = Session.ID session)
                   then session else existingSession))
  ∧ (∀ A X B : Session.t,
       Session.ID X = Session.ID session →
       Session.ID A ≠ Session.ID session →
       Session.ID B ≠ Session.ID session →
       queue = [A; X; B] → queue' = [A; session; B]).
Proof.
  intros queue queue'. subst queue'. rewrite Push_queue. fold queue.
  split; [reflexivity|]. split; [|split].
  - intros Hnot. rewrite bool_decide_eq_false_2 by assumption. reflexivity.
  - intros Hin. rewrite bool_decide_eq_true_2 by assumption.
    split; [apply length_fmap|].
    intros i existingSession Hi.
    rewrite list_lookup_fmap, Hi. simpl. unfold replaced.
    destruct (decide _) as [Heq|Hne].
    + rewrite bool_decide_eq_true_2 by assumption. reflexivity.
    + rewrite bool_decide_eq_false_2 by assumption. reflexivity.
  - intros A X B HX HA HB Hq. rewrite Hq.
    rewrite bool_decide_eq_true_2.
    + simpl. unfold replaced.
      rewrite (bool_decide_eq_false_2 _ HA), (bool_decide_eq_true_2 _ HX),
        (bool_decide_eq_false_2 _ HB). reflexivity.
    + unfold ids. simpl. rewrite HX. set_solver.
Qed.

Lemma push_replaces_in_place_witness :
  Controller.sessionQueue
    (Controller.PushSessionQueue sessionX'
       (Controller.mk [sessionA; sessionX; sessionB])).2
  = [sessionA; sessionX'; sessionB].
Proof.
  apply (proj2 (proj2 (proj2
           (push_replaces_in_place sessionX'
              (Controller.mk [sessionA; sessionX; sessionB]))))
         sessionA sessionX sessionB).
  - reflexivity.
  - vm_compute. discriminate.
  - vm_compute. discriminate.
  - reflexivity.
Defined.

(** C5, as amended.  [ShiftSessionQueue] scans from the head and hands
    out the first session that passes the filter on mode, type and model
    name (an empty field accepts anything), cutting exactly that entry
    out of the queue; the adapter directory plays no part.  Calls in a
    row hand out the passing sessions in queue order. *)
Theorem shift_first_passing (filter : SessionFilter.t) :
  (∀ (pre post : list Session.t) (session : Session.t),
     Forall (λ s, passes filter s = false) pre →
     passes filter session = true →
     Controller.ShiftSessionQueue filter (Controller.mk (pre ++ session :: post))
     = ((Some session, None), Controller.mk (pre ++ post)))
  ∧ (∀ (n : nat) (c : Controller.t),
       (shiftMany n filter c).1
       = take n (base.filter (λ s, passes filter s = true)
                   (Controller.sessionQueue c)))
  ∧ (∀ session : Session.t,
       passes filter session = true ↔
         (SessionFilter.Mode filter = "" ∨
            Session.Mode session = SessionFilter.Mode filter)
         ∧ (SessionFilter.Type_ filter = "" ∨
              Session.Type_ session = SessionFilter.Type_ filter)
         ∧ (SessionFilter.ModelName filter = "" ∨
              Session.ModelName session = SessionFilter.ModelName filter)).
Proof.
  split; [|split].
  - intros pre post session. apply Shift_hit.
  - intros n c. apply shiftMany_fifo.
  - intros session. unfold passes.
    rewrite !andb_true_iff, !bool_decide_eq_true. tauto.
Qed.

Lemma shift_first_passing_witness :
  Controller.ShiftSessionQueue textFilter
    (Controller.mk ([sessionB] ++ sessionA :: [sessionC]))
  = ((Some sessionA, None), Controller.mk ([sessionB] ++ [sessionC])).
Proof.
  apply (proj1 (shift_first_passing textFilter) [sessionB] [sessionC] sessionA).
  - repeat constructor.
  - reflexivity.
Defined.

(** C5, as the specification has it, fails: the only queued session has
    adapter directory [adapters/a], the filter asks for [adapters/b],
    and the session is handed out all the same. *)
Lemma shift_ignores_adapter_directory :
  matchesAllFields adapterFilter sessionTuned = false
  ∧ Controller.ShiftSessionQueue adapterFilter (Controller.mk [sessionTuned])
    = ((Some sessionTuned, None), Controller.mk []).
Proof. split; reflexivity. Qed.

(** The third testable property: on [A(Text); B(Image); C(Text)] with
    the filter type=Text the first shift hands out A, the second C. *)
Example shift_fifo_text :
  (shiftMany 2 textFilter (Controller.mk [sessionA; sessionB; sessionC])).1
  = [sessionA; sessionC].
Proof. reflexivity. Qed.



(** C7.  Given the sessions of the store, [loadSessionQueues] returns
    without error or panic and makes the queue the reversal of those
    sessions that have interactions and whose trailing interaction was
    created by the user; sessions without interactions or with a
    system-created trailing interaction are left out.  So the store order
    [s1(User); s2(System); s3(User)] gives the queue [s3; s1]. *)
Theorem rebuild_reverses_pending (sessions : list Session.t) (c : Controller.t) :
  Controller.loadSessionQueues (inr sessions) c
  = Returned (None,
      Controller.mk (reverse (base.filter (λ s, awaitsResponse s = true) sessions)))
  ∧ (∀ s : Session.t,
       awaitsResponse s = true ↔
         ∃ latest, last (Session.Interactions s) = Some latest
                   ∧ Interaction.Creator latest = CreatorTypeUser)
  ∧ (∀ s : Session.t, Session.Interactions s = [] → awaitsResponse s = false)
  ∧ (∀ (s : Session.t) (latest : Interaction.t),
       last (Session.Interactions s) = Some latest →
       Interaction.Creator latest = CreatorTypeSystem →
       awaitsResponse s = false)
  ∧ Controller.loadSessionQueues (inr [sessionA; sessionIdle; sessionC]) c
    = Returned (None, Controller.mk [sessionC; sessionA]).
Proof.
  split; [|split; [|split; [|split]]].
  - unfold Controller.loadSessionQueues.
    rewrite loadLoop_take by lia. rewrite firstn_all. reflexivity.
  - intros s. unfold awaitsResponse.
    destruct (last (Session.Interactions s)) as [latest|].
    + rewrite bool_decide_eq_true. split; [eauto|].
      intros (l & [= <-] & Hl). exact Hl.
    + split; [discriminate|]. intros (l & Hl & _). discriminate.
  - apply awaitsResponse_empty.
  - intros s latest Hlast Hcreator. unfold awaitsResponse.
    rewrite Hlast, Hcreator. reflexivity.
  - reflexivity.
Qed.

Lemma rebuild_reverses_pending_witness :
  awaitsResponse sessionIdle = false.
Proof.
  apply (proj1 (proj2 (proj2 (proj2
           (rebuild_reverses_pending [] (Controller.mk [])))))
         sessionIdle systemTurn); reflexivity.
Defined.

Lemma NoDup_ids_cut (pre post : list Session.t) (session : Session.t) :
  NoDup (ids (pre ++ session :: post)) → NoDup (ids (pre ++ post)).
Proof.
  unfold ids. rewrite !fmap_app, fmap_cons.
  rewrite !NoDup_app, NoDup_cons.
  intros (Hpre & Hsep & _ & Hpost). split; [assumption|]. split; [|assumption].
  intros x Hx Hin. apply (Hsep x Hx). right. assumption.
Qed.

Lemma ids_replaced (session : Session.t) (queue : list Session.t) :
  ids (replaced session <$> queue) = ids queue.
Proof.
  unfold ids. rewrite <- list_fmap_compose. apply list_fmap_ext.
  intros i x _. simpl. unfold replaced. case_bool_decide; congruence.
Qed.

(** C10.  From a queue whose session ids are pairwise distinct, any push
    and any shift lead to a queue whose session ids are pairwise
    distinct; what a shift leaves is the old queue with one entry cut
    out, or the old queue. *)
Theorem distinct_ids_preserved (c : Controller.t) :
  NoDup (ids (Controller.sessionQueue c)) →
  (∀ session : Session.t,
     NoDup (ids (Controller.sessionQueue
                   (Controller.PushSessionQueue session c).2)))
  ∧ (∀ filter : SessionFilter.t,
       NoDup (ids (Controller.sessionQueue
                     (Controller.ShiftSessionQueue filter c).2))
       ∧ sublist (Controller.sessionQueue
                    (Controller.ShiftSessionQueue filter c).2)
                 (Controller.sessionQueue c)).
Proof.
  intros Hdistinct. split.
  - intros session. rewrite Push_queue. case_bool_decide as Hin.
    + rewrite ids_replaced. assumption.
    + unfold ids in *. rewrite fmap_app. apply NoDup_app.
      split; [assumption|]. split; [|apply NoDup_singleton].
      intros x Hx Hx'. simpl in Hx'. apply list_elem_of_singleton in Hx'.
      subst x. contradiction.
  - intros filter. destruct c as [queue]. simpl in *.
    destruct (split_at_first_passing filter queue)
      as [Hall|(pre & s & post & -> & Hpre & Hs)].
    + rewrite Shift_miss by assumption. split; [assumption|reflexivity].
    + rewrite Shift_hit by assumption. simpl. split.
      * eapply NoDup_ids_cut; eassumption.
      * apply sublist_app; [reflexivity|]. apply sublist_cons. reflexivity.
Qed.

Lemma distinct_ids_preserved_witness :
  NoDup (ids [sessionA; sessionX; sessionB])
  ∧ NoDup (ids (Controller.sessionQueue
                  (Controller.PushSessionQueue sessionX'
                     (Controller.mk [sessionA; sessionX; sessionB])).2)).
Proof.
  assert (NoDup (ids [sessionA; sessionX; sessionB])) as Hdistinct
    by compute_done.
  split; [exact Hdistinct|].
  apply (proj1 (distinct_ids_preserved
                  (Controller.mk [sessionA; sessionX; sessionB]) Hdistinct)).
Defined.

(** ** Frames of one request *)

Section FrameFacts.

Variable rangeOrder : gmap string ToolCall.t → list ToolCall.t.

Implicit Types (req session : Request.t) (log : list Frame.t).

Ltac run_emit :=
  unfold bind, responseProcessor, emitStreamDone, errorSession,
    responseHandler, ret, panic; simpl.

Lemma recvLoop_shaped req stream buf toolCalls log :
  ∃ deltas, Forall isDelta deltas
    ∧ shaped req log (recvLoop rangeOrder req stream buf toolCalls log) deltas.
Proof.
  revert buf toolCalls log.
  induction stream as [response rest IH| |err]; intros buf toolCalls log.
  - simpl. destruct (StreamResponse.Choices response) as [|delta others].
    + exists []. split; [constructor|]. run_emit. exists [].
      rewrite app_nil_r. reflexivity.
    + run_emit.
      destruct (IH (buf +:+ Delta.Content delta)
                  (storeToolCalls toolCalls (Delta.ToolCalls delta))
                  (log ++ [deltaFrame req delta])) as (deltas & Hdeltas & Hshape).
      exists (deltaFrame req delta :: deltas).
      split; [constructor; [split; reflexivity|assumption]|].
      unfold deltaFrame in *. simpl in *.
      destruct (recvLoop _ _ _ _ _ _) as [[[err|]|why] log'];
        unfold shaped in *; simpl.
      * rewrite Hshape, <- app_assoc. reflexivity.
      * destruct Hshape as (final & -> & Hfinal).
        exists final. rewrite <- app_assoc. split; [reflexivity|assumption].
      * destruct Hshape as (partial & ->).
        eexists. rewrite <- app_assoc. reflexivity.
  - exists []. split; [constructor|]. run_emit.
    eexists. rewrite <- app_assoc. simpl. repeat split.
  - exists []. split; [constructor|]. run_emit. reflexivity.
Qed.

(** A failed opening call leaves the log alone; anything else is
    [shaped], and a blocking request sends no chunk frame. *)
Lemma processInteraction_shaped client req log :
  (∃ e, openError client req = Some e
        ∧ processInteraction rangeOrder client req log
          = (Returned (Some (wrapAPIError e)), log))
  ∨ (openError client req = None
     ∧ ∃ deltas, Forall isDelta deltas
         ∧ (Request.Stream req = false → deltas = [])
         ∧ shaped req log (processInteraction rangeOrder client req log) deltas).
Proof.
  unfold processInteraction, openError.
  destruct (Request.Stream req) eqn:Hstream.
  - destruct (Client.CreateChatCompletionStream client req) as [e|stream].
    + left. exists e. split; reflexivity.
    + right. split; [reflexivity|].
      destruct (recvLoop_shaped req stream "" ∅ log) as (deltas & Hdeltas & Hshape).
      exists deltas. split; [assumption|]. split; [discriminate|assumption].
  - destruct (Client.CreateChatCompletion client req) as [e|[response elapsed]].
    + left. exists e. split; reflexivity.
    + right. split; [reflexivity|]. exists []. split; [constructor|].
      split; [reflexivity|].
      destruct (Response.Choices response) as [|message others]; run_emit.
      * eexists. reflexivity.
      * eexists. rewrite <- app_assoc. simpl. repeat split.
Qed.

(** A blocking call that is answered with at least one choice ends
    well: the stream-done frame, then the Result frame with the content
    of the first choice and the usage with the measured duration. *)
Lemma blocking_completes client req response elapsed message others log :
  Request.Stream req = false →
  Client.CreateChatCompletion client req = inr (response, elapsed) →
  Response.Choices response = message :: others →
  processInteraction rangeOrder client req log
  = (Returned None,
     log ++ [streamDoneFrame req;
             resultFrame req
               (Usage.mk (Response.PromptTokens response)
                  (Response.CompletionTokens response)
                  (Response.TotalTokens response) (Time.Milliseconds elapsed))
               (ChatMessage.Content message) (ChatMessage.ToolCalls message)
               (ChatMessage.ToolCallID message)]).
Proof.
  intros Hstream Hcall Hchoices. unfold processInteraction.
  rewrite Hstream, Hcall, Hchoices. run_emit.
  rewrite <- app_assoc. reflexivity.
Qed.

Lemma work_frames client now session i log :
  (work rangeOrder client now session i log).2
  = match processInteraction rangeOrder client session log with
    | (Returned (Some err), log') => log' ++ [errorFrame session err]
    | (_, log') => log'
    end.
Proof.
  unfold work.
  destruct (processInteraction _ _ _ _) as [[[err|]|why] log']; try reflexivity.
  destruct (Contains _ _); reflexivity.
Qed.

End FrameFacts.

Section ProtocolClaims.

Variable rangeOrder : gmap string ToolCall.t → list ToolCall.t.


(** C3.  When [processInteraction] returns without error, the loop adds
    no frame of its own, and the frames of the request are the frames of
    the chunks (none for a blocking request), then the stream-done frame
    (type Stream, done, empty message), then one frame of type Result,
    done and without error.  The Result frame is thus the last frame and
    the stream-done frame stands right before it. *)
Theorem result_follows_stream_done (client : Client.t) (now : Time.t)
    (session : Request.t) (i : Instance.t) (log log' : list Frame.t) :
  processInteraction rangeOrder client session log = (Returned None, log') →
  let ran := work rangeOrder client now session i log in
  ran.1.1 = Returned Processed
  ∧ ran.2 = log'
  ∧ ∃ (deltas : list Frame.t) (final : Frame.t),
      log' = log ++ deltas ++ [streamDoneFrame session; final]
      ∧ Forall isDelta deltas
      ∧ (Request.Stream session = false → deltas = [])
      ∧ isStreamDone (streamDoneFrame session)
      ∧ isResult final ∧ Frame.Done final = true ∧ Frame.Error final = "".
Proof.
  intros Hran ran. subst ran.
  split; [unfold work; rewrite Hran; reflexivity|].
  split; [rewrite work_frames, Hran; reflexivity|].
  destruct (processInteraction_shaped rangeOrder client session log)
    as [(e & _ & Hopen)|(_ & deltas & Hdeltas & Hblocking & Hshape)].
  - rewrite Hran in Hopen. discriminate.
  - rewrite Hran in Hshape. destruct Hshape as (final & -> & Hfinal).
    exists deltas, final. repeat split; try assumption; apply Hfinal.
Qed.

End ProtocolClaims.



(** A stream that breaks after one chunk is reported twice: once by
    [processInteraction], once more by the loop of [Run]. *)
Example broken_stream_reported_twice :
  (work valuesOf breakingClient sampleNow streamRequest
     (startedInstance sampleNow) []).2
  = [deltaFrame streamRequest (Delta.mk "he" []);
     errorFrame streamRequest "unexpected EOF";
     errorFrame streamRequest "unexpected EOF"].
Proof. reflexivity. Qed.

(** The escape hatch: a refused connection is reported and then the
    process exits with code 1. *)
Example connection_refused_exits :
  (work valuesOf refusedClient sampleNow blockingRequest
     (startedInstance sampleNow) []).1.1 = Returned (Exit 1)
  ∧ length (work valuesOf refusedClient sampleNow blockingRequest
              (startedInstance sampleNow) []).2 = 1.
Proof. split; reflexivity. Qed.

(** The first scenario of the specification: chunks he and llo give
    Stream(he), Stream(llo), the stream-done frame and Result(hello). *)
Example streaming_happy_path :
  (work valuesOf (servingClient [Delta.mk "he" []; Delta.mk "llo" []])
     sampleNow streamRequest (startedInstance sampleNow) []).2
  = [deltaFrame streamRequest (Delta.mk "he" []);
     deltaFrame streamRequest (Delta.mk "llo" []);
     streamDoneFrame streamRequest;
     resultFrame streamRequest Usage.zero "hello" [] ""].
Proof. reflexivity. Qed.

Lemma result_follows_stream_done_witness :
  (work valuesOf (servingClient []) sampleNow blockingRequest
     (startedInstance sampleNow) []).2
  = [streamDoneFrame blockingRequest;
     resultFrame blockingRequest (Usage.mk 3 2 5 20) "hello" [] ""].
Proof.
  apply (proj1 (proj2
           (result_follows_stream_done valuesOf (servingClient []) sampleNow
              blockingRequest (startedInstance sampleNow) []
              [streamDoneFrame blockingRequest;
               resultFrame blockingRequest (Usage.mk 3 2 5 20) "hello" [] ""]
              eq_refl))).
Defined.

(** ** Tool calls of a stream *)

Section ToolCallFacts.

Implicit Types (m : gmap string ToolCall.t) (calls : list ToolCall.t).

Lemma storeToolCalls_snoc m calls call :
  storeToolCalls m (calls ++ [call])
  = <[ToolCall.ID call := call]> (storeToolCalls m calls).
Proof. unfold storeToolCalls. rewrite foldl_app. reflexivity. Qed.

Lemma lastWithID_snoc id calls call :
  lastWithID id (calls ++ [call])
  = if decide (ToolCall.ID call = id) then Some call else lastWithID id calls.
Proof.
  unfold lastWithID. rewrite filter_app.
  destruct (decide _) as [Heq|Hne].
  - rewrite filter_cons_True by assumption. rewrite filter_nil. apply last_snoc.
  - rewrite filter_cons_False by assumption.
    rewrite filter_nil, app_nil_r. reflexivity.
Qed.

(** The accumulator holds, under each id, the last call received with
    that id, and what it held before under the other ids. *)
Lemma storeToolCalls_lookup m calls id :
  storeToolCalls m calls !! id
  = match lastWithID id calls with
    | Some call => Some call
    | None => m !! id
    end.
Proof.
  induction calls as [|call calls IH] using rev_ind; [reflexivity|].
  rewrite storeToolCalls_snoc, lastWithID_snoc.
  destruct (decide _) as [Heq|Hne].
  - rewrite Heq. apply lookup_insert_eq.
  - rewrite lookup_insert_ne by assumption. exact IH.
Qed.

Lemma lastWithID_ID id calls call :
  lastWithID id calls = Some call → ToolCall.ID call = id.
Proof.
  unfold lastWithID. intros Hlast.
  apply last_Some_elem_of in Hlast.
  apply list_elem_of_filter in Hlast. tauto.
Qed.

Lemma gathered_lookup calls id call :
  storeToolCalls ∅ calls !! id = Some call ↔ lastWithID id calls = Some call.
Proof.
  rewrite storeToolCalls_lookup.
  destruct (lastWithID id calls); [reflexivity|].
  rewrite lookup_empty. reflexivity.
Qed.

Lemma gathered_ids calls :
  ToolCall.ID <$> valuesOf (storeToolCalls ∅ calls)
  = (map_to_list (storeToolCalls ∅ calls)).*1.
Proof.
  unfold valuesOf. rewrite <- list_fmap_compose.
  apply list_fmap_ext. intros i [id call] Hi. simpl.
  apply list_elem_of_lookup_2, elem_of_map_to_list in Hi.
  apply gathered_lookup in Hi. eapply lastWithID_ID. eassumption.
Qed.

Lemma storeToolCalls_app m calls calls' :
  storeToolCalls m (calls ++ calls')
  = storeToolCalls (storeToolCalls m calls) calls'.
Proof. unfold storeToolCalls. apply foldl_app. Qed.

End ToolCallFacts.

Section StreamFacts.

Variable rangeOrder : gmap string ToolCall.t → list ToolCall.t.

Lemma recvLoop_streamOf req deltas buf toolCalls log :
  recvLoop rangeOrder req (streamOf deltas) buf toolCalls log
  = (Returned None,
     log ++ (deltaFrame req <$> deltas)
       ++ [streamDoneFrame req;
           resultFrame req Usage.zero
             (foldl (λ b d, b +:+ Delta.Content d) buf deltas)
             (rangeOrder (storeToolCalls toolCalls (toolCallsOf deltas))) ""]).
Proof.
  revert buf toolCalls log.
  induction deltas as [|delta deltas IH]; intros buf toolCalls log.
  - simpl. unfold bind, emitStreamDone, responseProcessor, responseHandler, ret.
    simpl. rewrite <- app_assoc. reflexivity.
  - simpl. unfold bind at 1. unfold responseProcessor at 1.
    unfold responseHandler at 1. rewrite IH.
    unfold toolCallsOf. simpl. rewrite storeToolCalls_app.
    rewrite <- app_assoc. reflexivity.
Qed.

End StreamFacts.

Lemma gathered_toolDeltas :
  storeToolCalls ∅ (toolCallsOf toolDeltas) = {["t1" := callTail]}.
Proof.
  unfold toolCallsOf, toolDeltas, storeToolCalls. simpl.
  change (ToolCall.ID callName) with "t1".
  change (ToolCall.ID callHead) with "t1".
  change (ToolCall.ID callTail) with "t1".
  rewrite !insert_insert_eq. apply insert_empty.
Qed.

(** C2, as amended.  The accumulator of a streaming request is keyed by
    tool-call id and keeps, under each id, the last delta received with
    that id; nothing is concatenated.  When the stream ends, the Result
    frame lists the values of the accumulator, each id once, in the order
    the map is ranged over.  For the deltas [{id t1, name f}],
    [{id t1, args {"x":}], [{id t1, args 1}}] the list holds exactly one
    element: id t1, empty name, arguments [1}]. *)
Theorem tool_calls_last_delta_wins
    (rangeOrder : gmap string ToolCall.t → list ToolCall.t)
    (client : Client.t) (req : Request.t) (deltas : list Delta.t)
    (log : list Frame.t) :
  (∀ m, rangeOrder m ≡ₚ valuesOf m) →
  Request.Stream req = true →
  Client.CreateChatCompletionStream client req = inr (streamOf deltas) →
  ∃ calls : list ToolCall.t,
    processInteraction rangeOrder client req log
    = (Returned None,
       log ++ (deltaFrame req <$> deltas)
         ++ [streamDoneFrame req;
             resultFrame req Usage.zero (contentOf deltas) calls ""])
    ∧ (∀ call, call ∈ calls ↔
                 lastWithID (ToolCall.ID call) (toolCallsOf deltas) = Some call)
    ∧ NoDup (ToolCall.ID <$> calls)
    ∧ (deltas = toolDeltas → calls = [callTail]).
Proof.
  intros Horder Hstream Hopen.
  exists (rangeOrder (storeToolCalls ∅ (toolCallsOf deltas))).
  split; [|split; [|split]].
  - unfold processInteraction. rewrite Hstream, Hopen.
    apply recvLoop_streamOf.
  - intros call. rewrite Horder. unfold valuesOf.
    rewrite list_elem_of_fmap. split.
    + intros ([id call'] & -> & Hin). simpl.
      apply elem_of_map_to_list, gathered_lookup in Hin.
      rewrite (lastWithID_ID _ _ _ Hin). assumption.
    + intros Hlast. exists (ToolCall.ID call, call). split; [reflexivity|].
      apply elem_of_map_to_list, gathered_lookup. assumption.
  - rewrite Horder, gathered_ids. apply NoDup_fst_map_to_list.
  - intros ->. apply Permutation_singleton_r.
    rewrite Horder, gathered_toolDeltas. unfold valuesOf.
    rewrite map_to_list_singleton. reflexivity.
Qed.

Lemma tool_calls_last_delta_wins_witness :
  ∃ calls : list ToolCall.t,
    processInteraction valuesOf (servingClient toolDeltas) streamRequest []
    = (Returned None,
       [] ++ (deltaFrame streamRequest <$> toolDeltas)
         ++ [streamDoneFrame streamRequest;
             resultFrame streamRequest Usage.zero (contentOf toolDeltas) calls ""])
    ∧ calls = [callTail].
Proof.
  destruct (tool_calls_last_delta_wins valuesOf (servingClient toolDeltas)
              streamRequest toolDeltas [] (λ m, reflexivity (valuesOf m))
              eq_refl eq_refl) as (calls & Hran & _ & _ & Hcalls).
  exists calls. split; [exact Hran|]. apply Hcalls. reflexivity.
Defined.

(** C2, as the specification has it, fails: after the three deltas the
    one tool call of the Result frame has neither the name nor the joined
    arguments. *)
Lemma tool_call_deltas_not_merged :
  processInteraction valuesOf (servingClient toolDeltas) streamRequest []
  = (Returned None,
     (deltaFrame streamRequest <$> toolDeltas)
       ++ [streamDoneFrame streamRequest;
           resultFrame streamRequest Usage.zero "" [callTail] ""])
  ∧ ToolCall.Name callTail ≠ "f"
  ∧ ToolCall.Arguments callTail ≠ ToolCall.Arguments callMerged
  ∧ [callTail] ≠ [callMerged].
Proof.
  split; [|repeat split; discriminate].
  change (processInteraction valuesOf (servingClient toolDeltas) streamRequest [])
    with (recvLoop valuesOf streamRequest (streamOf toolDeltas) "" ∅ []).
  rewrite (recvLoop_streamOf valuesOf streamRequest toolDeltas "" ∅ []).
  rewrite gathered_toolDeltas. unfold valuesOf.
  rewrite map_to_list_singleton. reflexivity.
Qed.

(** ** Staleness *)

Section StaleFacts.

Implicit Types (now : Time.t) (i : Instance.t).

Lemma Since_in_range now (x : Time.t) :
  (Time.minDuration ≤ now - x ≤ Time.maxDuration)%Z →
  Time.Since now x = (now - x)%Z.
Proof.
  intros [Hlo Hhi]. unfold Time.Since, Time.Sub.
  rewrite bool_decide_eq_false_2 by lia.
  rewrite bool_decide_eq_false_2 by lia. reflexivity.
Qed.

(** [Stale] compares the time since the last activity with the TTL and
    looks at nothing else. *)
Lemma Stale_iff now i :
  (Time.minDuration ≤ now - Instance.lastActivity i ≤ Time.maxDuration)%Z →
  Instance.Stale now i = true
  ↔ (Instance.InstanceTTL i < now - Instance.lastActivity i)%Z.
Proof.
  intros Hrange. unfold Instance.Stale.
  rewrite Since_in_range by assumption. apply bool_decide_eq_true.
Qed.

(** The snapshot is given once there is an initial request; its flag
    needs, besides, a last activity that is not the zero time. *)
Lemma snapshotStale_iff now i :
  (Time.minDuration ≤ now - Instance.lastActivity i ≤ Time.maxDuration)%Z →
  Instance.initialRequest i ≠ None →
  ∃ stale, snapshotStale now i = Some stale
    ∧ (stale = true ↔ Instance.lastActivity i ≠ 0%Z
          ∧ (Instance.InstanceTTL i < now - Instance.lastActivity i)%Z).
Proof.
  intros Hrange Hinitial. unfold snapshotStale, Instance.GetState.
  destruct (Instance.initialRequest i) as [initial|]; [|congruence].
  eexists. split; [reflexivity|]. simpl.
  rewrite Since_in_range by assumption. unfold Time.IsZero.
  repeat case_bool_decide; split; try discriminate; try tauto.
Qed.

(** With a TTL of five seconds: six seconds of silence are stale, four
    are not, for both reports. *)
Example stale_after_six_seconds :
  Instance.Stale sampleNow (startedInstance sixSecondsAgo) = true
  ∧ snapshotStale sampleNow (startedInstance sixSecondsAgo)
    = Some true.
Proof. split; reflexivity. Qed.

Example fresh_after_four_seconds :
  Instance.Stale sampleNow (startedInstance fourSecondsAgo) = false
  ∧ snapshotStale sampleNow (startedInstance fourSecondsAgo)
    = Some false.
Proof. split; reflexivity. Qed.

End StaleFacts.


(** ** Stopping an instance *)

(** C9, as amended.  [Stop] returns an error, and changes nothing, when
    no command was ever launched.  On an instance whose subprocess has
    exited and whose work channel has not been closed, [Stop] returns no
    error, closes the work channel and cancels the context. *)
Theorem stop_error_or_success (i : Instance.t) :
  (Instance.currentCommand i = None →
     Instance.Stop i = (Returned (Some "no Ollama process to stop"), i))
  ∧ (subprocessExited i →
     Instance.workChClosed i = false →
       (Instance.Stop i).1 = Returned None
       ∧ Instance.workChClosed (Instance.Stop i).2 = true
       ∧ Instance.cancelled (Instance.Stop i).2 = true
       ∧ subprocessExited (Instance.Stop i).2).
Proof.
  split.
  - intros Hnone. unfold Instance.Stop. rewrite Hnone. reflexivity.
  - intros (cmd & Hcmd & Hexited) Hopen.
    unfold Instance.Stop. rewrite Hcmd. simpl. rewrite Hopen. simpl.
    repeat split. eexists. split; reflexivity.
Qed.

Lemma stop_error_or_success_witness :
  Instance.Stop idleInstance
  = (Returned (Some "no Ollama process to stop"), idleInstance)
  ∧ (Instance.Stop crashedInstance).1 = Returned None.
Proof.
  split.
  - apply (proj1 (stop_error_or_success idleInstance)). reflexivity.
  - apply (proj2 (stop_error_or_success crashedInstance)).
    + exists (Process.mk 4242 true). split; reflexivity.
    + reflexivity.
Defined.

(** C9, as the specification has it, fails: after a first [Stop] went
    well the subprocess has exited, and a second [Stop] panics on the
    closed work channel instead of succeeding. *)
Lemma second_stop_panics :
  (Instance.Stop (startedInstance sampleNow)).1 = Returned None
  ∧ subprocessExited (Instance.Stop (startedInstance sampleNow)).2
  ∧ (Instance.Stop (Instance.Stop (startedInstance sampleNow)).2).1
    = Panicked "close of closed channel".
Proof.
  split; [reflexivity|]. split; [|reflexivity].
  exists (Process.mk 4242 true). split; reflexivity.
Qed.

(** * Further properties of the session queue *)

Section MoreQueueFacts.

Implicit Types (c : Controller.t) (queue pre post : list Session.t).
Implicit Types (session s : Session.t) (filter : SessionFilter.t).

Lemma Push_result session c :
  Controller.PushSessionQueue session c
  = (None, Controller.mk
             (if bool_decide (Session.ID session ∈ ids (Controller.sessionQueue c))
              then replaced session <$> Controller.sessionQueue c
              else Controller.sessionQueue c ++ [session])).
Proof.
  rewrite <- Push_queue.
  unfold Controller.PushSessionQueue. reflexivity.
Qed.

Lemma replaced_twice session (x : Session.t) :
  replaced session (replaced session x) = replaced session x.
Proof.
  unfold replaced.
  destruct (bool_decide (Session.ID x = Session.ID session)) eqn:Hx.
  - rewrite bool_decide_eq_true_2 by reflexivity. reflexivity.
  - rewrite Hx. reflexivity.
Qed.

Lemma replaced_self session : replaced session session = session.
Proof. unfold replaced. case_bool_decide; reflexivity. Qed.

Lemma passes_anyFilter session : passes anyFilter session = true.
Proof.
  reflexivity.
Qed.

Lemma shiftMany_miss n filter c :
  Forall (λ s, passes filter s = false) (Controller.sessionQueue c) →
  shiftMany n filter c = ([], c).
Proof.
  intros Hall. induction n as [|n IH]; [reflexivity|].
  cbn [shiftMany]. rewrite Shift_miss by assumption. exact IH.
Qed.

Lemma filter_failing_all filter queue :
  Forall (λ s, passes filter s = false) queue →
  base.filter (λ s, passes filter s = false) queue = queue.
Proof.
  induction 1 as [|x queue Hx _ IH]; [reflexivity|].
  rewrite filter_cons_True by assumption. rewrite IH. reflexivity.
Qed.

Lemma pushAll_fresh (sessions queue : list Session.t) :
  NoDup (ids (queue ++ sessions)) →
  pushAll sessions (Controller.mk queue) = Controller.mk (queue ++ sessions).
Proof.
  revert queue. induction sessions as [|s sessions IH]; intros queue Hdistinct.
  - rewrite app_nil_r. reflexivity.
  - change (pushAll (s :: sessions) (Controller.mk queue))
      with (pushAll sessions
              (Controller.PushSessionQueue s (Controller.mk queue)).2).
    rewrite Push_result. simpl.
    rewrite bool_decide_eq_false_2.
    + simpl. rewrite IH; rewrite <- app_assoc; [reflexivity|exact Hdistinct].
    + unfold ids in *. rewrite fmap_app, fmap_cons in Hdistinct.
      apply NoDup_app in Hdistinct as (_ & Hsep & _).
      intros Hin. apply (Hsep _ Hin). left.
Qed.

Lemma shiftMany_any (queue : list Session.t) :
  shiftMany (length queue) anyFilter (Controller.mk queue)
  = (queue, Controller.mk []).
Proof.
  induction queue as [|x queue IH]; [reflexivity|].
  pose proof (Shift_hit anyFilter [] x queue (Forall_nil_2 _)
                (passes_anyFilter x)) as Hshift.
  simpl app in Hshift.
  simpl length. cbn [shiftMany]. rewrite Hshift, IH. reflexivity.
Qed.

End MoreQueueFacts.

(** X1.  Pushing the same session twice in a row is the same as pushing
    it once, answer and queue alike. *)
Theorem push_idempotent (session : Session.t) (c : Controller.t) :
  Controller.PushSessionQueue session (Controller.PushSessionQueue session c).2
  = Controller.PushSessionQueue session c.
Proof.
  rewrite (Push_result session c). simpl.
  rewrite Push_result. simpl. f_equal. f_equal.
  destruct (bool_decide (Session.ID session ∈ ids (Controller.sessionQueue c)))
    eqn:Hin.
  - apply bool_decide_eq_true_1 in Hin.
    rewrite ids_replaced, bool_decide_eq_true_2 by assumption.
    rewrite <- list_fmap_compose. apply list_fmap_ext.
    intros i x _. simpl. apply replaced_twice.
  - apply bool_decide_eq_false_1 in Hin.
    rewrite bool_decide_eq_true_2.
    + rewrite fmap_app. simpl. rewrite replaced_self.
      rewrite replaced_absent by assumption. reflexivity.
    + unfold ids. rewrite fmap_app. set_solver.
Qed.

(** X2.  After a push the pushed session is in the queue, every entry
    under its id is the pushed session itself, and the ids of the queue
    are the old ones, with the new id added at the end when it was not
    queued. *)
Theorem push_leaves_one_version (session : Session.t) (c : Controller.t) :
  let queue := Controller.sessionQueue c in
  let queue' := Controller.sessionQueue (Controller.PushSessionQueue session c).2 in
  session ∈ queue'
  ∧ (∀ x, x ∈ queue' → Session.ID x = Session.ID session → x = session)
  ∧ ids queue' = ids queue
                 ++ (if bool_decide (Session.ID session ∈ ids queue)
                     then [] else [Session.ID session]).
Proof.
  intros queue queue'. subst queue'. rewrite Push_queue. fold queue.
  case_bool_decide as Hin.
  - split; [|split].
    + unfold ids in Hin. apply list_elem_of_fmap in Hin as (x & Hid & Hx).
      apply list_elem_of_fmap. exists x. split; [|assumption].
      unfold replaced. rewrite bool_decide_eq_true_2 by congruence. reflexivity.
    + intros x Hx Hid. apply list_elem_of_fmap in Hx as (y & -> & _).
      unfold replaced in *. case_bool_decide; [reflexivity|contradiction].
    + rewrite ids_replaced, app_nil_r. reflexivity.
  - split; [|split].
    + set_solver.
    + intros x Hx Hid. apply elem_of_app in Hx as [Hx|Hx].
      * exfalso. apply Hin. unfold ids. rewrite <- Hid.
        apply list_elem_of_fmap. exists x. split; [reflexivity|assumption].
      * apply list_elem_of_singleton in Hx. assumption.
    + unfold ids. rewrite fmap_app. reflexivity.
Qed.

(** X3.  [ShiftSessionQueue] never answers an error.  It hands out a
    session exactly when some queued session passes the filter; that
    session was queued, passes the filter, and the queue gets shorter by
    one.  Otherwise nothing changes. *)
Theorem shift_hands_out_queued (filter : SessionFilter.t) (c : Controller.t) :
  match Controller.ShiftSessionQueue filter c with
  | ((Some session, err), c') =>
      err = None
      ∧ session ∈ Controller.sessionQueue c
      ∧ passes filter session = true
      ∧ length (Controller.sessionQueue c)
        = S (length (Controller.sessionQueue c'))
  | ((None, err), c') =>
      err = None ∧ c' = c
      ∧ Forall (λ s, passes filter s = false) (Controller.sessionQueue c)
  end.
Proof.
  destruct c as [queue]. simpl.
  destruct (split_at_first_passing filter queue)
    as [Hall|(pre & s & post & -> & Hpre & Hs)].
  - rewrite Shift_miss by assumption. repeat split. assumption.
  - rewrite Shift_hit by assumption. simpl.
    repeat split; [set_solver|assumption|].
    rewrite !length_app. simpl. lia.
Qed.

(** X4.  Used with the empty filter the queue is a plain first-in
    first-out queue: sessions with pairwise distinct ids pushed onto the
    empty queue come back, by as many shifts, in the order pushed, and
    the queue is empty again. *)
Theorem push_shift_round_trip (sessions : list Session.t) :
  NoDup (ids sessions) →
  shiftMany (length sessions) anyFilter (pushAll sessions (Controller.mk []))
  = (sessions, Controller.mk []).
Proof.
  intros Hdistinct. rewrite pushAll_fresh by exact Hdistinct.
  apply shiftMany_any.
Qed.

Lemma push_shift_round_trip_witness :
  NoDup (ids [sessionA; sessionB; sessionC])
  ∧ shiftMany 3 anyFilter
      (pushAll [sessionA; sessionB; sessionC] (Controller.mk []))
    = ([sessionA; sessionB; sessionC], Controller.mk []).
Proof.
  assert (NoDup (ids [sessionA; sessionB; sessionC])) as Hdistinct
    by compute_done.
  split; [exact Hdistinct|].
  exact (push_shift_round_trip [sessionA; sessionB; sessionC] Hdistinct).
Defined.

(** X5.  Shifts never take a session that fails the filter: after any
    number of shifts with one filter the failing sessions are all still
    queued, in their order.  Once there were as many shifts as the queue
    was long, every passing session has been handed out and the queue
    holds the failing ones only. *)
Theorem shifts_leave_the_rest (n : nat) (filter : SessionFilter.t)
    (c : Controller.t) :
  base.filter (λ s, passes filter s = false)
    (Controller.sessionQueue (shiftMany n filter c).2)
  = base.filter (λ s, passes filter s = false) (Controller.sessionQueue c)
  ∧ (length (Controller.sessionQueue c) ≤ n →
     shiftMany n filter c
     = (base.filter (λ s, passes filter s = true) (Controller.sessionQueue c),
        Controller.mk (base.filter (λ s, passes filter s = false)
                         (Controller.sessionQueue c)))).
Proof.
  revert c. induction n as [|n IH]; intros [queue];
    cbn [Controller.sessionQueue].
  - split; [reflexivity|]. intros Hlen. cbn [shiftMany].
    destruct queue; [reflexivity|simpl in Hlen; lia].
  - destruct (split_at_first_passing filter queue)
      as [Hall|(pre & s & post & -> & Hpre & Hs)].
    + rewrite shiftMany_miss by assumption. split; [reflexivity|].
      intros _. rewrite filter_none, filter_failing_all by assumption.
      reflexivity.
    + cbn [shiftMany]. rewrite Shift_hit by assumption. cbn [fst snd].
      destruct (IH (Controller.mk (pre ++ post))) as [IHrest IHall].
      cbn [Controller.sessionQueue] in IHrest, IHall.
      assert (base.filter (λ s, passes filter s = false) (pre ++ s :: post)
              = base.filter (λ s, passes filter s = false) (pre ++ post)) as Hcut.
      { rewrite !filter_app. f_equal.
        apply filter_cons_False. rewrite Hs. discriminate. }
      split.
      * rewrite IHrest, Hcut. reflexivity.
      * intros Hlen. rewrite IHall by (rewrite length_app in *; simpl in Hlen; lia).
        cbn [fst snd]. rewrite Hcut. f_equal.
        rewrite !filter_app, !filter_none by assumption.
        rewrite filter_cons_True by assumption. reflexivity.
Qed.

Lemma shifts_leave_the_rest_witness :
  shiftMany 3 textFilter (Controller.mk [sessionA; sessionB; sessionC])
  = ([sessionA; sessionC], Controller.mk [sessionB]).
Proof.
  apply (proj2 (shifts_leave_the_rest 3 textFilter
                  (Controller.mk [sessionA; sessionB; sessionC]))).
  simpl. lia.
Defined.

(** * Further properties of the rebuild *)

Lemma rebuild_result (sessions : list Session.t) (c : Controller.t) :
  Controller.loadSessionQueues (inr sessions) c
  = Returned (None,
      Controller.mk (reverse (base.filter (λ s, awaitsResponse s = true) sessions))).
Proof.
  unfold Controller.loadSessionQueues.
  rewrite loadLoop_take by lia. rewrite firstn_all. reflexivity.
Qed.

(** X6.  After a rebuild the first shift with the empty filter hands out
    the oldest pending session: the last session of the store answer
    that awaits a response.  The sessions before it in the answer stay
    queued behind it, oldest first. *)
Theorem rebuild_then_shift_oldest (newer older : list Session.t)
    (session : Session.t) (c : Controller.t) :
  awaitsResponse session = true →
  Forall (λ s, awaitsResponse s = false) older →
  ∃ c', Controller.loadSessionQueues (inr (newer ++ session :: older)) c
        = Returned (None, c')
    ∧ Controller.ShiftSessionQueue anyFilter c'
      = ((Some session, None),
         Controller.mk (reverse (base.filter (λ s, awaitsResponse s = true) newer))).
Proof.
  intros Hsession Holder. eexists. split; [apply rebuild_result|].
  rewrite filter_app, filter_cons_True by assumption.
  assert (base.filter (λ s, awaitsResponse s = true) older = []) as ->.
  { clear -Holder. induction Holder as [|x older Hx _ IH]; [reflexivity|].
    rewrite filter_cons_False by (rewrite Hx; discriminate). exact IH. }
  rewrite reverse_app, reverse_singleton. simpl.
  apply (Shift_hit anyFilter [] session); [constructor|reflexivity].
Qed.

Lemma rebuild_then_shift_oldest_witness :
  ∃ c', Controller.loadSessionQueues
          (inr ([sessionA] ++ sessionC :: [sessionIdle])) (Controller.mk [sessionB])
        = Returned (None, c')
    ∧ Controller.ShiftSessionQueue anyFilter c'
      = ((Some sessionC, None),
         Controller.mk (reverse (base.filter (λ s, awaitsResponse s = true)
                                   [sessionA]))).
Proof.
  apply (rebuild_then_shift_oldest [sessionA] [sessionIdle] sessionC
           (Controller.mk [sessionB])).
  - reflexivity.
  - repeat constructor.
Defined.

(** X7.  A rebuild forgets the queue it finds and takes every entry of
    the new queue from the store answer: each awaits a response, none is
    counted twice when the ids of the answer are pairwise distinct, and
    the queue is no longer than the answer.  When the store answers an
    error, the error is handed on and the queue stays as it was. *)
Theorem rebuild_from_store_only (sessions : list Session.t) (c : Controller.t) :
  (∀ err, Controller.loadSessionQueues (inl err) c = Returned (Some err, c))
  ∧ ∃ queue,
      (∀ c', Controller.loadSessionQueues (inr sessions) c'
             = Returned (None, Controller.mk queue))
      ∧ Forall (λ s, awaitsResponse s = true ∧ s ∈ sessions) queue
      ∧ length queue ≤ length sessions
      ∧ (NoDup (ids sessions) → NoDup (ids queue)).
Proof.
  split; [reflexivity|].
  exists (reverse (base.filter (λ s, awaitsResponse s = true) sessions)).
  split; [intros c'; apply rebuild_result|]. split; [|split].
  - apply Forall_forall. intros s Hs.
    apply elem_of_reverse, list_elem_of_filter in Hs. exact Hs.
  - rewrite length_reverse. apply length_filter.
  - intros Hdistinct. unfold ids in *. rewrite fmap_reverse.
    rewrite reverse_Permutation.
    eapply sublist_NoDup; [exact Hdistinct|].
    apply fmap_sublist, sublist_filter.
Qed.

Lemma rebuild_from_store_only_witness :
  NoDup (ids [sessionA; sessionIdle; sessionC])
  ∧ ∃ queue,
      Controller.loadSessionQueues (inr [sessionA; sessionIdle; sessionC])
        (Controller.mk [sessionB])
      = Returned (None, Controller.mk queue)
      ∧ NoDup (ids queue).
Proof.
  assert (NoDup (ids [sessionA; sessionIdle; sessionC])) as Hdistinct
    by compute_done.
  split; [exact Hdistinct|].
  destruct (proj2 (rebuild_from_store_only [sessionA; sessionIdle; sessionC]
                     (Controller.mk [])))
    as (queue & Hload & _ & _ & Hnodup).
  exists queue. split; [apply Hload|exact (Hnodup Hdistinct)].
Defined.

(** * Tasks and active sessions *)

Section TaskFacts.

Context {TextStream : Type}.
Implicit Types (models : Models.t TextStream) (c : Active.t TextStream).
Implicit Types (session s : Session.t).

(** X8.  [ConvertSessionToTask] never answers a task together with an
    error.  A task is made for Create sessions of type Text or Image
    only; it carries the id of the session and the session itself.  No
    session, or a session of another mode, gives neither task nor
    error. *)
Theorem convert_task_or_error models (session : option Session.t) :
  let answer := ConvertSessionToTask models session in
  (answer.1 = None ∨ answer.2 = None)
  ∧ (∀ task, answer.1 = Some task →
       ∃ s, session = Some s
            ∧ WorkerTask.SessionID task = Session.ID s
            ∧ WorkerTask.Session task = s
            ∧ Session.Mode s = "Create"
            ∧ (Session.Type_ s = "Text" ∨ Session.Type_ s = "Image"))
  ∧ (session = None → answer = (None, None))
  ∧ (∀ s, session = Some s → Session.Mode s ≠ "Create" → answer = (None, None)).
Proof.
  intros answer. subst answer. unfold ConvertSessionToTask.
  destruct session as [s|]; [|repeat split; [left; reflexivity|discriminate]].
  destruct (bool_decide (Session.Mode s = "Create")) eqn:Hmode;
    [apply bool_decide_eq_true_1 in Hmode|apply bool_decide_eq_false_1 in Hmode];
    cbn [andb].
  - destruct (bool_decide (Session.Type_ s = "Text")) eqn:Htext;
      [apply bool_decide_eq_true_1 in Htext|].
    + destruct (Models.GetLanguageModel models (Session.ModelName s)) as [err|model];
        [|destruct (LanguageModel.GetPrompt model s) as [err|prompt]]; simpl;
        (split; [auto|]); (split; [|split; [discriminate|intros ? [= <-]; contradiction]]);
        intros task [= <-]; eauto 10.
    + destruct (bool_decide (Session.Type_ s = "Image")) eqn:Himage;
        [apply bool_decide_eq_true_1 in Himage|].
      * destruct (Models.GetImageModel models (Session.ModelName s)) as [err|model];
          [|destruct (ImageModel.GetPrompt model s) as [err|prompt]]; simpl;
          (split; [auto|]); (split; [|split; [discriminate|intros ? [= <-]; contradiction]]);
          intros task [= <-]; eauto 10.
      * repeat (destruct (_ && _)); simpl;
          (split; [auto|]); (split; [|split; [discriminate|intros ? [= <-]; contradiction]]);
          intros task [=].
  - repeat (destruct (_ && _)); simpl;
      (split; [auto|]); (split; [intros task [=]|split; [discriminate|reflexivity]]).
Qed.

End TaskFacts.

Lemma convert_task_or_error_witness :
  ∃ s, Some sessionA = Some s
       ∧ WorkerTask.SessionID (WorkerTask.mk "A" sessionA "prompt for A")
         = Session.ID s
       ∧ WorkerTask.Session (WorkerTask.mk "A" sessionA "prompt for A") = s
       ∧ Session.Mode s = "Create"
       ∧ (Session.Type_ s = "Text" ∨ Session.Type_ s = "Image").
Proof.
  apply (proj1 (proj2 (convert_task_or_error sampleModels (Some sessionA)))
           (WorkerTask.mk "A" sessionA "prompt for A")).
  reflexivity.
Defined.

Section ActiveFacts.

Context {TextStream : Type}.
Implicit Types (models : Models.t TextStream) (c : Active.t TextStream).
Implicit Types (session s : Session.t) (id : string).

Lemma Add_sessions models session c :
  Active.activeSessions (Active.AddActiveSession models session c).2
  = <[Session.ID session := session]> (Active.activeSessions c).
Proof.
  unfold Active.AddActiveSession.
  destruct (_ && _); [|reflexivity].
  destruct (Models.GetLanguageModel _ _) as [err|model]; [reflexivity|].
  destruct (LanguageModel.GetTextStream model); reflexivity.
Qed.

(** X9.  Whatever [AddActiveSession] answers, error or not, the session
    is active afterwards and [GetActiveSession] finds it under its id;
    what is found under any other id is as before. *)
Theorem add_then_get models session c :
  Active.GetActiveSession (Session.ID session)
    (Active.AddActiveSession models session c).2
  = (Some session, None)
  ∧ ∀ id, id ≠ Session.ID session →
      Active.GetActiveSession id (Active.AddActiveSession models session c).2
      = Active.GetActiveSession id c.
Proof.
  unfold Active.GetActiveSession. rewrite Add_sessions. split.
  - rewrite lookup_insert_eq. reflexivity.
  - intros id Hid. rewrite lookup_insert_ne by congruence. reflexivity.
Qed.

(** X10.  [AddActiveSession] registers a text stream for Create sessions
    of type Text whose model is known and opens a stream, and for no
    other: with any other session, and when it answers an error, the text
    streams are as before.  It answers an error only for a Create session
    of type Text. *)
Theorem add_text_stream models session c :
  let answer := Active.AddActiveSession models session c in
  (∀ err, answer.1 = Some err →
     Active.activeTextStreams answer.2 = Active.activeTextStreams c
     ∧ Session.Type_ session = "Text" ∧ Session.Mode session = "Create")
  ∧ (¬ (Session.Type_ session = "Text" ∧ Session.Mode session = "Create") →
     answer.1 = None
     ∧ Active.activeTextStreams answer.2 = Active.activeTextStreams c)
  ∧ (answer.1 = None →
     Session.Type_ session = "Text" → Session.Mode session = "Create" →
     ∃ sessionModel textStream,
       Models.GetLanguageModel models (Session.ModelName session) = inr sessionModel
       ∧ LanguageModel.GetTextStream sessionModel = inr textStream
       ∧ Active.GetActiveTextStream (Session.ID session) answer.2
         = (Some textStream, None)).
Proof.
  intros answer. subst answer. unfold Active.AddActiveSession.
  destruct (bool_decide (Session.Type_ session = "Text")) eqn:Htext;
    [apply bool_decide_eq_true_1 in Htext|apply bool_decide_eq_false_1 in Htext];
    cbn [andb].
  - destruct (bool_decide (Session.Mode session = "Create")) eqn:Hmode;
      [apply bool_decide_eq_true_1 in Hmode|apply bool_decide_eq_false_1 in Hmode].
    + destruct (Models.GetLanguageModel models (Session.ModelName session))
        as [err|sessionModel].
      * simpl. split; [auto|]. split; [tauto|discriminate].
      * destruct (LanguageModel.GetTextStream sessionModel) as [err|textStream]
          eqn:Hstream; simpl.
        -- split; [auto|]. split; [tauto|discriminate].
        -- split; [discriminate|]. split; [tauto|].
           intros _ _ _. exists sessionModel, textStream.
           split; [reflexivity|]. split; [assumption|].
           unfold Active.GetActiveTextStream. simpl.
           rewrite lookup_insert_eq. reflexivity.
    + simpl. split; [discriminate|]. split; [auto|]. intros _ _ ?. contradiction.
  - simpl. split; [discriminate|]. split; [auto|]. intros _ ?. contradiction.
Qed.

(** X11.  [RemoveActiveSession] answers an error and changes nothing
    when the id is not active.  Otherwise it answers no error, the id is
    no longer found, a second removal answers the error, every other id
    is found as before, and the text streams are not touched: the text
    stream of the session stays registered. *)
Theorem remove_active_session id c :
  match Active.activeSessions c !! id with
  | None => Active.RemoveActiveSession id c = (Some "session not found", c)
  | Some _ =>
      let answer := Active.RemoveActiveSession id c in
      answer.1 = None
      ∧ Active.GetActiveSession id answer.2 = (None, Some "session not found")
      ∧ (Active.RemoveActiveSession id answer.2).1 = Some "session not found"
      ∧ (∀ id', id' ≠ id →
           Active.GetActiveSession id' answer.2 = Active.GetActiveSession id' c)
      ∧ Active.activeTextStreams answer.2 = Active.activeTextStreams c
  end.
Proof.
  unfold Active.RemoveActiveSession, Active.GetActiveSession.
  destruct (Active.activeSessions c !! id) as [session|] eqn:Hid;
    [|reflexivity].
  simpl. rewrite lookup_delete_eq. repeat split.
  intros id' Hne. rewrite lookup_delete_ne by congruence. reflexivity.
Qed.

(** X12.  The same for text streams: [RemoveActiveTextStream] answers an
    error and changes nothing for an id without text stream; otherwise
    the stream is gone, the other streams and all active sessions are as
    before. *)
Theorem remove_active_text_stream id c :
  match Active.activeTextStreams c !! id with
  | None => Active.RemoveActiveTextStream id c = (Some "text stream not found", c)
  | Some _ =>
      let answer := Active.RemoveActiveTextStream id c in
      answer.1 = None
      ∧ Active.GetActiveTextStream id answer.2
        = (None, Some "text stream not found")
      ∧ (∀ id', id' ≠ id →
           Active.GetActiveTextStream id' answer.2
           = Active.GetActiveTextStream id' c)
      ∧ Active.activeSessions answer.2 = Active.activeSessions c
  end.
Proof.
  unfold Active.RemoveActiveTextStream, Active.GetActiveTextStream.
  destruct (Active.activeTextStreams c !! id) as [textStream|] eqn:Hid;
    [|reflexivity].
  simpl. rewrite lookup_delete_eq. repeat split.
  intros id' Hne. rewrite lookup_delete_ne by congruence. reflexivity.
Qed.

(** X13.  A worker response for a session that has just been added is
    never refused: it is handed back when the session is a Create session
    of type Image and dropped, without error, for every other session,
    Create sessions of type Text included.  Once the session has been
    removed the response is refused with [session not found]. *)
Theorem response_after_add models session c (taskResponse : WorkerTaskResponse.t) :
  WorkerTaskResponse.SessionID taskResponse = Session.ID session →
  let added := (Active.AddActiveSession models session c).2 in
  Active.HandleWorkerResponse taskResponse added
  = (if bool_decide (Session.Mode session = "Create"
                     ∧ Session.Type_ session = "Image")
     then (Some taskResponse, None) else (None, None))
  ∧ Active.HandleWorkerResponse taskResponse
      (Active.RemoveActiveSession (Session.ID session) added).2
    = (None, Some "session not found").
Proof.
  intros Hid added. subst added. split.
  - unfold Active.HandleWorkerResponse, Active.GetActiveSession.
    rewrite Hid, Add_sessions, lookup_insert_eq.
    unfold Active.handleWorkerResponseLanguageInference,
      Active.handleWorkerResponseImageInference.
    repeat case_bool_decide; simpl; try reflexivity; try tauto; congruence.
  - unfold Active.HandleWorkerResponse, Active.RemoveActiveSession,
      Active.GetActiveSession.
    rewrite Hid, Add_sessions, lookup_insert_eq. simpl.
    rewrite lookup_delete_eq. reflexivity.
Qed.

End ActiveFacts.

Lemma add_text_stream_witness :
  (Active.AddActiveSession sampleModels sessionUnknownModel noActive).1
  = Some "no model found"
  ∧ Active.activeTextStreams
      (Active.AddActiveSession sampleModels sessionUnknownModel noActive).2
    = Active.activeTextStreams noActive
  ∧ ∃ sessionModel textStream,
      Models.GetLanguageModel sampleModels (Session.ModelName sessionA)
      = inr sessionModel
      ∧ LanguageModel.GetTextStream sessionModel = inr textStream
      ∧ Active.GetActiveTextStream (Session.ID sessionA)
          (Active.AddActiveSession sampleModels sessionA noActive).2
        = (Some textStream, None).
Proof.
  split; [reflexivity|]. split.
  - apply (proj1 (add_text_stream sampleModels sessionUnknownModel noActive)
             "no model found" eq_refl).
  - apply (proj2 (proj2 (add_text_stream sampleModels sessionA noActive)));
      reflexivity.
Defined.

Lemma response_after_add_witness :
  Active.HandleWorkerResponse (WorkerTaskResponse.mk "I" "done")
    (Active.AddActiveSession sampleModels sessionImage noActive).2
  = (Some (WorkerTaskResponse.mk "I" "done"), None).
Proof.
  apply (proj1 (response_after_add sampleModels sessionImage noActive
                  (WorkerTaskResponse.mk "I" "done") eq_refl)).
Defined.

(** * Further properties of the frames of a request *)

Section MoreFrameFacts.

Variable rangeOrder : gmap string ToolCall.t → list ToolCall.t.

Implicit Types (req session : Request.t) (log : list Frame.t).

Lemma recvLoop_addressed req stream buf toolCalls log :
  ∃ new, (recvLoop rangeOrder req stream buf toolCalls log).2 = log ++ new
         ∧ Forall (addressedTo req) new.
Proof.
  revert buf toolCalls log.
  induction stream as [response rest IH| |err]; intros buf toolCalls log; simpl.
  - destruct (StreamResponse.Choices response) as [|delta others].
    + exists []. rewrite app_nil_r. split; [reflexivity|constructor].
    + unfold bind at 1. unfold responseProcessor at 1. unfold responseHandler at 1.
      destruct (IH (buf +:+ Delta.Content delta)
                  (storeToolCalls toolCalls (Delta.ToolCalls delta))
                  (log ++ [Frame.mk WorkerTaskResponseTypeStream
                             (Request.SessionID req) (Request.InteractionID req)
                             (Request.Owner req) false (Delta.Content delta)
                             Usage.zero (Delta.ToolCalls delta) "" ""]))
        as (new & Hnew & Hall).
      eexists. rewrite Hnew, <- app_assoc. split; [reflexivity|].
      constructor; [split; reflexivity|assumption].
  - eexists. unfold bind, emitStreamDone, responseProcessor, responseHandler, ret.
    simpl. rewrite <- app_assoc. split; [reflexivity|].
    repeat constructor.
  - eexists. unfold bind, errorSession, responseHandler, ret. simpl.
    split; [reflexivity|]. repeat constructor.
Qed.

Lemma processInteraction_addressed client req log :
  ∃ new, (processInteraction rangeOrder client req log).2 = log ++ new
         ∧ Forall (addressedTo req) new.
Proof.
  unfold processInteraction. destruct (Request.Stream req).
  - destruct (Client.CreateChatCompletionStream client req) as [err|stream].
    + exists []. rewrite app_nil_r. split; [reflexivity|constructor].
    + apply recvLoop_addressed.
  - destruct (Client.CreateChatCompletion client req) as [err|[response elapsed]].
    + exists []. rewrite app_nil_r. split; [reflexivity|constructor].
    + destruct (Response.Choices response) as [|message others];
        unfold bind, emitStreamDone, responseProcessor, responseHandler, ret, panic;
        simpl; eexists; (split; [try rewrite <- app_assoc; reflexivity|]);
        repeat constructor.
Qed.

Lemma work_appends client now session (i : Instance.t) log :
  ∃ new, (work rangeOrder client now session i log).2 = log ++ new
         ∧ Forall (addressedTo session) new.
Proof.
  rewrite work_frames.
  destruct (processInteraction_addressed client session log) as (new & Hnew & Hall).
  destruct (processInteraction rangeOrder client session log)
    as [[[err|]|why] log']; simpl in Hnew; subst log'.
  - exists (new ++ [errorFrame session err]). rewrite app_assoc.
    split; [reflexivity|]. apply Forall_app. split; [assumption|].
    repeat constructor.
  - exists new. split; [reflexivity|assumption].
  - exists new. split; [reflexivity|assumption].
Qed.

(** X14.  Working on a request never rewrites or drops a frame handed
    over before, and every frame it adds names the session and the owner
    of that request, however the request ends. *)
Theorem frames_addressed_to_request (client : Client.t) (now : Time.t)
    (session : Request.t) (i : Instance.t) (log : list Frame.t) :
  ∃ new, (work rangeOrder client now session i log).2 = log ++ new
         ∧ Forall (addressedTo session) new.
Proof. apply work_appends. Qed.

End MoreFrameFacts.

Section StringFacts.

Lemma append_assoc (a b c : string) : (a +:+ b) +:+ c = a +:+ (b +:+ c).
Proof.
  induction a as [|ch a IH]; [reflexivity|].
  change (String ch ((a +:+ b) +:+ c) = String ch (a +:+ (b +:+ c))).
  rewrite IH. reflexivity.
Qed.

Lemma append_empty_r (a : string) : a +:+ "" = a.
Proof.
  induction a as [|ch a IH]; [reflexivity|].
  change (String ch (a +:+ "") = String ch a). rewrite IH. reflexivity.
Qed.

Lemma gathered_content req (deltas : list Delta.t) (buf : string) :
  foldl (λ b d, b +:+ Delta.Content d) buf deltas
  = buf +:+ joined (deltaFrame req <$> deltas).
Proof.
  revert buf. induction deltas as [|delta deltas IH]; intros buf.
  - simpl. rewrite append_empty_r. reflexivity.
  - change (foldl (λ b d, b +:+ Delta.Content d) buf (delta :: deltas))
      with (foldl (λ b d, b +:+ Delta.Content d) (buf +:+ Delta.Content delta)
              deltas).
    rewrite IH. apply append_assoc.
Qed.

End StringFacts.

Section MoreStreamFacts.

Variable rangeOrder : gmap string ToolCall.t → list ToolCall.t.

Lemma recvLoop_streamThen req deltas rest buf toolCalls log :
  recvLoop rangeOrder req (streamThen deltas rest) buf toolCalls log
  = recvLoop rangeOrder req rest
      (foldl (λ b d, b +:+ Delta.Content d) buf deltas)
      (storeToolCalls toolCalls (toolCallsOf deltas))
      (log ++ (deltaFrame req <$> deltas)).
Proof.
  revert buf toolCalls log.
  induction deltas as [|delta deltas IH]; intros buf toolCalls log.
  - simpl. rewrite app_nil_r. reflexivity.
  - simpl. unfold bind at 1. unfold responseProcessor at 1.
    unfold responseHandler at 1. rewrite IH.
    unfold toolCallsOf. simpl. rewrite storeToolCalls_app.
    rewrite <- app_assoc. reflexivity.
Qed.

(** X15.  When the server streams chunks and then ends the stream, the
    request is answered by one Stream frame per chunk, the stream-done
    frame and a Result frame whose message is the messages of the Stream
    frames joined in their order. *)
Theorem result_message_joins_chunks (client : Client.t) (req : Request.t)
    (deltas : list Delta.t) (log : list Frame.t) :
  Request.Stream req = true →
  Client.CreateChatCompletionStream client req = inr (streamOf deltas) →
  ∃ (chunks : list Frame.t) (final : Frame.t),
    processInteraction rangeOrder client req log
    = (Returned None, log ++ chunks ++ [streamDoneFrame req; final])
    ∧ length chunks = length deltas
    ∧ Forall isDelta chunks
    ∧ Frame.Message <$> chunks = Delta.Content <$> deltas
    ∧ isResult final
    ∧ Frame.Message final = joined chunks.
Proof.
  intros Hstream Hopen.
  exists (deltaFrame req <$> deltas). eexists.
  split; [|split; [|split; [|split; [|split]]]].
  - unfold processInteraction. rewrite Hstream, Hopen.
    apply recvLoop_streamOf.
  - apply length_fmap.
  - apply Forall_fmap, Forall_forall. intros delta _. split; reflexivity.
  - rewrite <- list_fmap_compose. reflexivity.
  - reflexivity.
  - simpl. apply (gathered_content req deltas "").
Qed.

(** X16.  A chunk without choices makes [processInteraction] panic on
    [Choices[0]]: the frames of the chunks before it have been handed
    over, and neither a stream-done frame nor a Result frame nor an error
    frame follows; the loop does not get to clear the current request.
    A blocking answer without choices panics as well, after the
    stream-done frame has been handed over. *)
Theorem choiceless_answer_panics (client : Client.t) (now : Time.t)
    (session : Request.t) (i : Instance.t) (log : list Frame.t) :
  (∀ deltas rest,
     Request.Stream session = true →
     Client.CreateChatCompletionStream client session
     = inr (streamThen deltas (RecvChunk (StreamResponse.mk []) rest)) →
     work rangeOrder client now session i log
     = (Panicked "index out of range",
        Instance.setLastActivity now (Instance.setCurrentRequest (Some session) i),
        log ++ (deltaFrame session <$> deltas)))
  ∧ (∀ response elapsed,
       Request.Stream session = false →
       Client.CreateChatCompletion client session = inr (response, elapsed) →
       Response.Choices response = [] →
       work rangeOrder client now session i log
       = (Panicked "index out of range",
          Instance.setLastActivity now (Instance.setCurrentRequest (Some session) i),
          log ++ [streamDoneFrame session])).
Proof.
  split.
  - intros deltas rest Hstream Hopen. unfold work, processInteraction.
    rewrite Hstream, Hopen, recvLoop_streamThen. reflexivity.
  - intros response elapsed Hstream Hcall Hchoices.
    unfold work, processInteraction.
    rewrite Hstream, Hcall, Hchoices. reflexivity.
Qed.

End MoreStreamFacts.

Lemma result_message_joins_chunks_witness :
  ∃ (chunks : list Frame.t) (final : Frame.t),
    processInteraction valuesOf
      (servingClient [Delta.mk "he" []; Delta.mk "llo" []]) streamRequest []
    = (Returned None, [] ++ chunks ++ [streamDoneFrame streamRequest; final])
    ∧ Frame.Message final = joined chunks.
Proof.
  destruct (result_message_joins_chunks valuesOf
              (servingClient [Delta.mk "he" []; Delta.mk "llo" []])
              streamRequest [Delta.mk "he" []; Delta.mk "llo" []] []
              eq_refl eq_refl)
    as (chunks & final & Hran & _ & _ & _ & _ & Hjoined).
  exists chunks, final. split; assumption.
Defined.

Lemma choiceless_answer_panics_witness :
  work valuesOf choicelessClient sampleNow streamRequest
    (startedInstance sampleNow) []
  = (Panicked "index out of range",
     Instance.setLastActivity sampleNow
       (Instance.setCurrentRequest (Some streamRequest)
          (startedInstance sampleNow)),
     [] ++ (deltaFrame streamRequest <$> [Delta.mk "he" []])).
Proof.
  apply (proj1 (choiceless_answer_panics valuesOf choicelessClient sampleNow
                  streamRequest (startedInstance sampleNow) [])
           [Delta.mk "he" []] RecvEOF eq_refl eq_refl).
Defined.

(** * Further properties of time and staleness *)

Section MoreStaleFacts.

Implicit Types (now x : Time.t) (i : Instance.t).

Lemma Duration_range : (Time.minDuration < 0 < Time.maxDuration)%Z.
Proof. split; reflexivity. Qed.

Lemma Since_cases now x :
  (now - x < Time.minDuration ∧ Time.Since now x = Time.minDuration)%Z
  ∨ (Time.maxDuration < now - x ∧ Time.Since now x = Time.maxDuration)%Z
  ∨ (Time.minDuration ≤ now - x ≤ Time.maxDuration
     ∧ Time.Since now x = now - x)%Z.
Proof.
  pose proof Duration_range.
  unfold Time.Since, Time.Sub. repeat case_bool_decide; lia.
Qed.

(** X17.  Without new activity a stale instance stays stale: if [Stale]
    holds at one reading of the clock, it holds at every later one. *)
Theorem stale_stays_stale now (now' : Time.t) i :
  (now ≤ now')%Z →
  Instance.Stale now i = true → Instance.Stale now' i = true.
Proof.
  intros Hlater. unfold Instance.Stale. rewrite !bool_decide_eq_true.
  pose proof Duration_range.
  destruct (Since_cases now (Instance.lastActivity i)) as [[? ->]|[[? ->]|[? ->]]];
    destruct (Since_cases now' (Instance.lastActivity i))
      as [[? ->]|[[? ->]|[? ->]]]; lia.
Qed.

Lemma stale_stays_stale_witness :
  Instance.Stale (sampleNow + Time.Second)%Z (startedInstance sixSecondsAgo) = true.
Proof.
  apply (stale_stays_stale sampleNow (sampleNow + Time.Second)%Z
           (startedInstance sixSecondsAgo)).
  - vm_compute. discriminate.
  - reflexivity.
Defined.

(** X18.  [GetState] answers an error exactly when the instance has no
    initial request.  When it answers a snapshot and the last activity
    is not the zero time, the stale flag of the snapshot is what [Stale]
    answers at the same reading of the clock, and the snapshot names the
    instance, its model and the session of the initial request. *)
Theorem snapshot_agrees_with_stale now i :
  (Instance.initialRequest i = None ↔
     Instance.GetState now i = inr "no initial session")
  ∧ (∀ initial, Instance.initialRequest i = Some initial →
       ∃ state, Instance.GetState now i = inl state
         ∧ ModelInstanceState.ID state = Instance.id i
         ∧ ModelInstanceState.ModelName state = Instance.modelName i
         ∧ ModelInstanceState.InitialSessionID state = Request.SessionID initial
         ∧ (Instance.lastActivity i ≠ 0%Z →
              ModelInstanceState.Stale state = Instance.Stale now i)).
Proof.
  unfold Instance.GetState, Instance.Stale, Time.IsZero. split.
  - destruct (Instance.initialRequest i); split; congruence.
  - intros initial ->. eexists. split; [reflexivity|]. simpl.
    repeat split. intros Hactive.
    rewrite bool_decide_eq_false_2 by assumption.
    destruct (bool_decide _); reflexivity.
Qed.

Lemma snapshot_agrees_with_stale_witness :
  ∃ state, Instance.GetState sampleNow (startedInstance sixSecondsAgo) = inl state
    ∧ ModelInstanceState.Stale state
      = Instance.Stale sampleNow (startedInstance sixSecondsAgo).
Proof.
  destruct (proj2 (snapshot_agrees_with_stale sampleNow
                     (startedInstance sixSecondsAgo)) streamRequest eq_refl)
    as (state & Hstate & _ & _ & _ & Hstale).
  exists state. split; [exact Hstate|]. apply Hstale.
  vm_compute. discriminate.
Defined.

End MoreStaleFacts.

(** * Further properties of the model instance *)

Section MoreInstanceFacts.

Variable rangeOrder : gmap string ToolCall.t → list ToolCall.t.

Implicit Types (i : Instance.t) (now : Time.t).

Lemma work_instance client now session i log :
  (work rangeOrder client now session i log).1.2
  = let touched :=
      Instance.setLastActivity now (Instance.setCurrentRequest (Some session) i) in
    match (work rangeOrder client now session i log).1.1 with
    | Returned Processed | Returned (Failed _) =>
        Instance.setCurrentRequest None touched
    | _ => touched
    end.
Proof.
  unfold work.
  destruct (processInteraction _ _ _ _) as [[[err|]|why] log']; try reflexivity.
  destruct (Contains _ _); reflexivity.
Qed.

(** X19.  Working on a request counts as activity: however the request
    ends, the last activity of the instance is the reading of the clock
    at which the request was taken, so the instance is not stale at any
    later reading within the TTL.  The current request is cleared when
    the request was processed or failed, and still set when the loop
    exits the process or panics. *)
Theorem work_refreshes_activity (client : Client.t) now (session : Request.t)
    i (log : list Frame.t) :
  let ran := work rangeOrder client now session i log in
  Instance.lastActivity ran.1.2 = now
  ∧ Instance.InstanceTTL ran.1.2 = Instance.InstanceTTL i
  ∧ (∀ now', (0 ≤ now' - now ≤ Instance.InstanceTTL i)%Z →
       Instance.Stale now' ran.1.2 = false)
  ∧ Instance.currentRequest ran.1.2
    = match ran.1.1 with
      | Returned Processed | Returned (Failed _) => None
      | _ => Some session
      end.
Proof.
  intros ran. subst ran. rewrite work_instance.
  assert (∀ j, Instance.lastActivity j = now →
               Instance.InstanceTTL j = Instance.InstanceTTL i →
               ∀ now', (0 ≤ now' - now ≤ Instance.InstanceTTL i)%Z →
                       Instance.Stale now' j = false) as Hfresh.
  { intros j Hlast Httl now' Hnow. unfold Instance.Stale.
    rewrite Hlast, Httl. apply bool_decide_eq_false_2.
    pose proof Duration_range.
    destruct (Since_cases now' now) as [[? ->]|[[? ->]|[? ->]]]; lia. }
  destruct ((work rangeOrder client now session i log).1.1) as [[| |]|];
    simpl; (split; [reflexivity|]); (split; [reflexivity|]);
    (split; [apply Hfresh; reflexivity|reflexivity]).
Qed.

End MoreInstanceFacts.

Lemma work_refreshes_activity_witness :
  Instance.Stale (sampleNow + 4 * Time.Second)%Z
    (work valuesOf (servingClient []) sampleNow blockingRequest
       (startedInstance sixSecondsAgo) []).1.2
  = false.
Proof.
  apply (proj1 (proj2 (proj2
           (work_refreshes_activity valuesOf (servingClient []) sampleNow
              blockingRequest (startedInstance sixSecondsAgo) [])))).
  vm_compute. split; discriminate.
Defined.


(** X20.  [Stop] succeeds at most once: a successful [Stop] leaves the
    work channel closed and the context cancelled, and the next [Stop] on
    that instance does not succeed, since closing the closed channel
    panics.  Whatever it answers, [Stop] leaves the identity, the TTL,
    the requests, the last activity and the job history alone. *)
Theorem stop_succeeds_once (i : Instance.t) :
  ((Instance.Stop i).1 = Returned None →
     Instance.workChClosed (Instance.Stop i).2 = true
     ∧ Instance.cancelled (Instance.Stop i).2 = true
     ∧ (Instance.Stop (Instance.Stop i).2).1 ≠ Returned None)
  ∧ Instance.id (Instance.Stop i).2 = Instance.id i
  ∧ Instance.InstanceTTL (Instance.Stop i).2 = Instance.InstanceTTL i
  ∧ Instance.initialRequest (Instance.Stop i).2 = Instance.initialRequest i
  ∧ Instance.currentRequest (Instance.Stop i).2 = Instance.currentRequest i
  ∧ Instance.lastActivity (Instance.Stop i).2 = Instance.lastActivity i
  ∧ Instance.jobHistory (Instance.Stop i).2 = Instance.jobHistory i.
Proof.
  unfold Instance.Stop.
  destruct (Instance.currentCommand i) as [cmd|] eqn:Hcmd.
  - simpl. destruct (Instance.workChClosed i) eqn:Hclosed; simpl.
    + split; [discriminate|repeat split].
    + split; [|repeat split]. intros _. repeat split. discriminate.
  - simpl. rewrite Hcmd. split; [discriminate|repeat split].
Qed.

Lemma stop_succeeds_once_witness :
  Instance.workChClosed (Instance.Stop crashedInstance).2 = true
  ∧ Instance.cancelled (Instance.Stop crashedInstance).2 = true
  ∧ (Instance.Stop (Instance.Stop crashedInstance).2).1 ≠ Returned None.
Proof.
  apply (proj1 (stop_succeeds_once crashedInstance)). reflexivity.
Defined.

(** X21.  [addJobToHistory] puts the new summary first and keeps the
    history within the buffer size: from a history no longer than a
    non-negative buffer size it makes the new summary followed by the
    old ones, cut at the buffer size, so the oldest summary goes when
    the buffer was full.  When no summary can be made, the error is
    handed on and the history is as before. *)
Theorem job_history_bounded (size : Z) (summary : string) (i : Instance.t) :
  (0 ≤ size)%Z →
  (Z.of_nat (length (Instance.jobHistory i)) ≤ size)%Z →
  let answer := addJobToHistory size (inr summary) i in
  answer.1 = None
  ∧ Instance.jobHistory answer.2
    = take (Z.to_nat size) (summary :: Instance.jobHistory i)
  ∧ (Z.of_nat (length (Instance.jobHistory answer.2)) ≤ size)%Z
  ∧ ∀ err, addJobToHistory size (inl err) i = (Some err, i).
Proof.
  intros Hsize Hlen answer. subst answer.
  assert (Instance.jobHistory (addJobToHistory size (inr summary) i).2
          = take (Z.to_nat size) (summary :: Instance.jobHistory i)) as Heq.
  { change (Instance.jobHistory (addJobToHistory size (inr summary) i).2)
      with (if bool_decide
                 (size < Z.of_nat (length (summary :: Instance.jobHistory i)))%Z
            then take (length (summary :: Instance.jobHistory i) - 1)
                   (summary :: Instance.jobHistory i)
            else summary :: Instance.jobHistory i).
    cbn [length] in *. case_bool_decide as Hfull.
    - f_equal. lia.
    - rewrite take_ge; [reflexivity|]. cbn [length]. lia. }
  split; [reflexivity|]. split; [exact Heq|]. split; [|reflexivity].
  rewrite Heq, length_take. lia.
Qed.

Lemma job_history_bounded_witness :
  Instance.jobHistory
    (addJobToHistory 2 (inr "third")
       (setJobHistory ["second"; "first"] freshInstance)).2
  = ["third"; "second"].
Proof.
  apply (proj1 (proj2 (job_history_bounded 2 "third"
                         (setJobHistory ["second"; "first"] freshInstance)
                         ltac:(lia) ltac:(simpl; lia)))).
Defined.

(** X22.  [NewOllamaInferenceModelInstance] fails exactly when the model
    of the request is unknown.  The instance it makes is named after the
    model of the request, has seen activity at the time of its making, so
    it is not stale then for a non-negative TTL, has no subprocess, so
    [Stop] answers an error, and has no initial request, so [GetState]
    answers an error. *)
Theorem new_instance (GetModel : string → error + Z) (uuid : string)
    (now : Time.t) (parentDone : bool) (ttl : Time.Duration)
    (request : Request.t) :
  match NewOllamaInferenceModelInstance GetModel uuid now parentDone ttl request with
  | inr err => GetModel (Request.Model request) = inl err
  | inl i =>
      (∃ aiModel, GetModel (Request.Model request) = inr aiModel)
      ∧ ID i = uuid
      ∧ Model i = Request.Model request
      ∧ Instance.lastActivity i = now
      ∧ ((0 ≤ ttl)%Z → Instance.Stale now i = false)
      ∧ Instance.Stop i = (Returned (Some "no Ollama process to stop"), i)
      ∧ (∀ now', Instance.GetState now' i = inr "no initial session")
  end.
Proof.
  unfold NewOllamaInferenceModelInstance.
  destruct (GetModel (Request.Model request)) as [err|aiModel]; [reflexivity|].
  split; [eauto|]. repeat split.
  intros Httl. unfold Instance.Stale. simpl.
  apply bool_decide_eq_false_2.
  pose proof Duration_range.
  destruct (Since_cases now now) as [[? ->]|[[? ->]|[? ->]]]; lia.
Qed.

(** * The loop started by Run *)

Section LoopFacts.

Variable rangeOrder : gmap string ToolCall.t → list ToolCall.t.

Implicit Types (st : Loop.t) (client : Client.t) (now : Time.t).
Implicit Types (next : error + option Request.t) (preferDone : bool).

(** X23.  The work channel is the backpressure of the loop: while it
    holds a request, or once the instance is cancelled or the channel
    closed, the answer of [getNextRequest] plays no part in the turn.  A
    request is put on the channel only when the channel is empty and
    open and the instance is not cancelled, and then nothing else
    changes. *)
Theorem loop_pulls_only_when_idle client preferDone now next st :
  (is_Some (Loop.workCh st)
   ∨ Instance.cancelled (Loop.instance st) = true
   ∨ Instance.workChClosed (Loop.instance st) = true →
   ∀ next', Loop.turn rangeOrder client preferDone now next st
            = Loop.turn rangeOrder client preferDone now next' st)
  ∧ ((Loop.turn rangeOrder client preferDone now next st).1 = Loop.Enqueued →
     Loop.workCh st = None
     ∧ Instance.cancelled (Loop.instance st) = false
     ∧ Instance.workChClosed (Loop.instance st) = false
     ∧ ∃ session, next = inr (Some session)
         ∧ (Loop.turn rangeOrder client preferDone now next st).2
           = Loop.mk (Loop.instance st) (Some session) (Loop.frames st)).
Proof.
  unfold Loop.turn. split.
  - intros Hbusy next'.
    destruct (Loop.workCh st) as [session|] eqn:Hch;
      destruct (Instance.cancelled (Loop.instance st)) eqn:Hdone;
      destruct (Instance.workChClosed (Loop.instance st)) eqn:Hclosed;
      destruct preferDone; simpl; try reflexivity;
      destruct Hbusy as [[? ?]|[?|?]]; discriminate.
  - destruct (Loop.workCh st) as [session|] eqn:Hch;
      destruct (Instance.cancelled (Loop.instance st)) eqn:Hdone;
      destruct (Instance.workChClosed (Loop.instance st)) eqn:Hclosed;
      destruct preferDone; simpl; try discriminate;
      destruct next as [err|[session|]]; simpl; try discriminate;
      intros _; repeat split; eauto.
Qed.

(** X24.  A request pulled by an idle loop is put on the work channel
    without any frame being sent, and the next turn works on exactly that
    request, empties the channel and leaves what [work] leaves, whatever
    [getNextRequest] would answer then. *)
Theorem pulled_request_is_worked_next client preferDone now
    (session : Request.t) st :
  Loop.workCh st = None →
  Instance.cancelled (Loop.instance st) = false →
  Instance.workChClosed (Loop.instance st) = false →
  let pulled := Loop.turn rangeOrder client preferDone now (inr (Some session)) st in
  pulled = (Loop.Enqueued,
            Loop.mk (Loop.instance st) (Some session) (Loop.frames st))
  ∧ ∀ preferDone' (now' : Time.t) next',
      Loop.turn rangeOrder client preferDone' now' next' pulled.2
      = let ran := work rangeOrder client now' session (Loop.instance st)
                     (Loop.frames st) in
        (Loop.Worked ran.1.1, Loop.mk ran.1.2 None ran.2).
Proof.
  intros Hch Hdone Hclosed pulled. subst pulled. unfold Loop.turn.
  rewrite Hch, Hdone, Hclosed. simpl. split; [reflexivity|].
  intros preferDone' now' next'. rewrite Hdone. reflexivity.
Qed.

(** X25.  After a successful [Stop] the loop is over: with an empty work
    channel the next turn returns without sending a frame or pulling a
    request.  With a request still on the channel the turn returns or
    works on that request, as Go chooses; in no case is a further request
    pulled. *)
Theorem stopped_loop_returns client preferDone now next (i : Instance.t)
    (held : option Request.t) (log : list Frame.t) :
  (Instance.Stop i).1 = Returned None →
  let st := Loop.mk (Instance.Stop i).2 held log in
  (held = None →
     Loop.turn rangeOrder client preferDone now next st = (Loop.Stopped, st))
  ∧ (Loop.turn rangeOrder client true now next st = (Loop.Stopped, st))
  ∧ (Loop.turn rangeOrder client preferDone now next st).1 ≠ Loop.Enqueued
  ∧ (Loop.turn rangeOrder client preferDone now next st).1 ≠ Loop.Slept.
Proof.
  intros Hstop st. subst st.
  assert (Instance.cancelled (Instance.Stop i).2 = true
          ∧ Instance.workChClosed (Instance.Stop i).2 = true) as [Hdone Hclosed].
  { unfold Instance.Stop in *.
    destruct (Instance.currentCommand i); [|discriminate]. simpl in *.
    destruct (Instance.workChClosed i); [discriminate|]. split; reflexivity. }
  unfold Loop.turn. simpl. rewrite Hdone, Hclosed.
  destruct held as [session|]; destruct preferDone; simpl;
    repeat split; try discriminate; intros [=].
Qed.

Lemma turn_keeps client preferDone now next st :
  Instance.initialRequest (Loop.instance (Loop.turn rangeOrder client preferDone now next st).2)
  = Instance.initialRequest (Loop.instance st)
  ∧ ∃ new, Loop.frames (Loop.turn rangeOrder client preferDone now next st).2
           = Loop.frames st ++ new
      ∧ ((∀ ended, (Loop.turn rangeOrder client preferDone now next st).1
                   ≠ Loop.Worked ended) → new = []).
Proof.
  unfold Loop.turn.
  destruct (_ && _); [split; [reflexivity|exists []; rewrite app_nil_r; auto]|].
  destruct (_ || _).
  - destruct (Loop.workCh st) as [session|];
      [|split; [reflexivity|exists []; rewrite app_nil_r; auto]].
    simpl. split.
    + rewrite work_instance.
      destruct ((work rangeOrder client now session (Loop.instance st)
                   (Loop.frames st)).1.1) as [[| |]|]; reflexivity.
    + destruct (work_appends rangeOrder client now session (Loop.instance st)
                  (Loop.frames st)) as (new & Hnew & _).
      exists new. split; [exact Hnew|]. intros Hnot. exfalso. eapply Hnot. reflexivity.
  - destruct next as [err|[session|]]; simpl;
      (split; [reflexivity|exists []; rewrite app_nil_r; auto]).
Qed.

(** X26.  Over any run of the loop the frames handed over are only added
    to, and the initial request of the instance is never set: an instance
    without initial request, as the constructor makes it, has none after
    the run, and [GetState] still answers an error. *)
Theorem loop_never_sets_initial_request client
    (inputs : list (bool * Time.t * (error + option Request.t))) st :
  Instance.initialRequest (Loop.instance (turns rangeOrder client inputs st))
  = Instance.initialRequest (Loop.instance st)
  ∧ (∃ new, Loop.frames (turns rangeOrder client inputs st) = Loop.frames st ++ new)
  ∧ (Instance.initialRequest (Loop.instance st) = None →
     ∀ now, Instance.GetState now (Loop.instance (turns rangeOrder client inputs st))
            = inr "no initial session").
Proof.
  assert (Instance.initialRequest (Loop.instance (turns rangeOrder client inputs st))
          = Instance.initialRequest (Loop.instance st)
          ∧ ∃ new, Loop.frames (turns rangeOrder client inputs st)
                   = Loop.frames st ++ new) as [Hinitial Hframes].
  { revert st. induction inputs as [|[[preferDone now] next] inputs IH]; intros st.
    - split; [reflexivity|]. exists []. rewrite app_nil_r. reflexivity.
    - cbn [turns].
      destruct (turn_keeps client preferDone now next st)
        as (Hkeep & new & Hnew & _).
      destruct (lastTurn _).
      + split; [exact Hkeep|]. exists new. exact Hnew.
      + destruct (IH (Loop.turn rangeOrder client preferDone now next st).2)
          as (IHinitial & new' & IHnew).
        split; [congruence|]. exists (new ++ new').
        rewrite IHnew, Hnew, app_assoc. reflexivity. }
  split; [exact Hinitial|]. split; [exact Hframes|].
  intros Hnone now. unfold Instance.GetState. rewrite Hinitial, Hnone. reflexivity.
Qed.

End LoopFacts.

Lemma pulled_request_is_worked_next_witness :
  Loop.turn valuesOf (servingClient []) false sampleNow
    (inr (Some blockingRequest)) sampleLoop
  = (Loop.Enqueued,
     Loop.mk (Loop.instance sampleLoop) (Some blockingRequest)
       (Loop.frames sampleLoop)).
Proof.
  apply (proj1 (pulled_request_is_worked_next valuesOf (servingClient []) false
                  sampleNow blockingRequest sampleLoop eq_refl eq_refl eq_refl)).
Defined.

Lemma stopped_loop_returns_witness :
  Loop.turn valuesOf (servingClient []) false sampleNow
    (inr (Some blockingRequest))
    (Loop.mk (Instance.Stop crashedInstance).2 None [])
  = (Loop.Stopped, Loop.mk (Instance.Stop crashedInstance).2 None []).
Proof.
  apply (proj1 (stopped_loop_returns valuesOf (servingClient []) false sampleNow
                  (inr (Some blockingRequest)) crashedInstance None [] eq_refl)).
  reflexivity.
Defined.

(** * The limits of a crawl *)


